(** * USB-I2C interfacing module of the FX3 firmware (I2cFunctions.c)

    A shallow embedding of [ParseUSBBuffer], [AdiI2CReadHandler],
    [AdiI2CWriteHandler] and [AdiI2CInit], and the properties of the
    module's specification checked against it.

    Conventions.
    - A [uint8_t] is a [Byte.byte]; [u8] gives its value in [0, 255].
      A [uint32_t] is a [Z] kept in range by [u32] (reduction modulo 2^32),
      a [uint16_t] one kept in range by [u16].
    - A C array is a list of bytes.  An access outside the array has no
      meaning in C: the model stops there with the fault [OutOfBounds].
      Reading a local that was never assigned stops with [Uninitialized];
      [ParseUSBBuffer_from] and [AdiI2CWriteHandler_from] are the same code
      entered with a value in that local.
    - The globals of main.c ([USBBuffer], [BulkBuffer], [ManualDMABuffer],
      [FX3State]) are the fields of [state].
    - The Cypress SDK and the error log are outside the module.  Their entry
      points are the fields of [Sdk]: functions of the state [W] of the
      outside world.  Every call is appended to [trace] with its arguments
      and its result.

    The file has six parts: the model, the vocabulary of the properties,
    a test bench, the lemmas about the model, the claims, and further
    properties of the module. *)

From Stdlib Require Import ZArith Lia String.
From Stdlib.Strings Require Import Byte.
From stdpp Require Import base list.

Local Open Scope Z_scope.

(** * Part 1: the model *)

(** ** Machine integers *)

Abbreviation byte := Byte.byte.

Definition u8 (b : byte) : Z := Z.of_N (Byte.to_N b).

Definition u32 (z : Z) : Z := z mod 2 ^ 32.

Definition u16 (z : Z) : Z := z mod 2 ^ 16.

Definition CY_U3P_SUCCESS : Z := 0.

(** ** Faults: where C gives the program no meaning *)

Inductive array_id := USBBuffer_arr | BulkBuffer_arr | preamble_buffer_arr.

(** [OutOfFuel] is the model's own: a loop cut short by its fuel.  No parse
    ends that way ([ParseUSBBuffer_never_out_of_fuel]). *)
Inductive fault :=
| OutOfBounds (a : array_id) (i : Z)
| Uninitialized (var : string)
| OutOfFuel.

Inductive res (A : Type) :=
| Ok (a : A)
| Err (f : fault).
Arguments Ok {A} a.
Arguments Err {A} f.

Definition res_bind {A B} (r : res A) (k : A -> res B) : res B :=
  match r with
  | Ok a => k a
  | Err f => Err f
  end.

Declare Scope res_scope.
Delimit Scope res_scope with res.
Notation "x <-! c ; k" := (res_bind c (fun x => k))
  (at level 20, c at level 100, k at level 200, only parsing) : res_scope.

(** [a[i]] as an rvalue. *)
Definition rd (a : array_id) (arr : list byte) (i : Z) : res byte :=
  if i <? 0 then Err (OutOfBounds a i)
  else match arr !! Z.to_nat i with
       | Some b => Ok b
       | None => Err (OutOfBounds a i)
       end.

(** [a[i] = v]. *)
Definition wr (a : array_id) (arr : list byte) (i : Z) (v : byte)
  : res (list byte) :=
  if (0 <=? i) && (i <? Z.of_nat (length arr))
  then Ok (<[Z.to_nat i := v]> arr)
  else Err (OutOfBounds a i).

(** ** The SDK's structures *)

(** [CyU3PI2cPreamble_t].  The module assigns [length], [ctrlMask] and
    [buffer[i]]; the number of elements of [buffer] is fixed by the SDK
    header ([preamble_buffer_len] below). *)
Module I2cPreamble.
Record t := mk { buffer : list byte; length : Z; ctrlMask : Z }.
End I2cPreamble.
Abbreviation CyU3PI2cPreamble_t := I2cPreamble.t.

Inductive pointer := Ptr (a : array_id) (off : Z).

(** [CyU3PDmaBuffer_t] is declared by the SDK, not by this module: a buffer
    pointer and the [uint16_t] members [count], [size] and [status], of which
    the module assigns the first two.  An assignment to a 16-bit member
    keeps the value modulo 2^16; the record holds the values as stored. *)
Module DmaBuffer.
Record t := mk { buffer : pointer; size : Z; count : Z }.
End DmaBuffer.
Abbreviation CyU3PDmaBuffer_t := DmaBuffer.t.

(** [CyU3PI2cConfig_t], after [CyU3PMemSet (&i2cConfig, 0, sizeof i2cConfig)]
    and the four assignments of [AdiI2CInit]. *)
Record CyU3PI2cConfig_t := mkI2cConfig {
  bitRate : Z;
  busTimeout : Z;
  dmaTimeout : Z;
  isDma : bool
}.

(** The two fields of [BoardState] this module touches. *)
Record BoardState := mkBoardState {
  I2CBitRate : Z;
  I2CRetryCount : Z
}.

(** ** The outside world *)

Inductive event :=
| EvUsbGetEP0Data (RequestLength status bytesRead : Z)
| EvI2cReceiveBytes (preamble : CyU3PI2cPreamble_t) (dst : pointer)
                    (byteCount retryCount status : Z)
| EvI2cTransmitBytes (preamble : CyU3PI2cPreamble_t) (src : pointer)
                     (data : list byte) (byteCount retryCount status : Z)
| EvDmaChannelSetupSendBuffer (b : CyU3PDmaBuffer_t)
| EvI2cDeInit
| EvI2cInit (status : Z)
| EvI2cSetConfig (cfg : CyU3PI2cConfig_t) (status : Z)
| EvAdiLogError (file : string) (line : Z) (code : Z).

(** What the module consumes and does not define.  [W] is the state of the
    USB stack, the I2C block and the flash log.
    - [preamble_buffer_len]: the number of elements of
      [CyU3PI2cPreamble_t.buffer].
    - [CyU3PUsbGetEP0Data (count, buf, &bytesRead)] gives its status, the
      contents of [buf] afterwards and [bytesRead].
    - [CyU3PI2cReceiveBytes (preamble, data, byteCount, retryCount)] gives
      its status and the contents of [data] afterwards.
    - [CyU3PI2cTransmitBytes (preamble, data, byteCount, retryCount)] is
      given [data] as the bytes of the array it points into, from the
      pointer on, at most [byteCount] of them.
    - [CyU3PDmaChannelSetupSendBuffer] is given the descriptor and the
      contents of the buffer it points to.
    - [AdiLogError (file, line, code)] is the module's error log. *)
Record Sdk (W : Type) := mkSdk {
  preamble_buffer_len : nat;
  CyU3PUsbGetEP0Data : W -> Z -> list byte -> Z * list byte * Z * W;
  CyU3PI2cReceiveBytes :
    W -> CyU3PI2cPreamble_t -> list byte -> Z -> Z -> Z * list byte * W;
  CyU3PI2cTransmitBytes :
    W -> CyU3PI2cPreamble_t -> list byte -> Z -> Z -> Z * W;
  CyU3PDmaChannelSetupSendBuffer : W -> CyU3PDmaBuffer_t -> list byte -> W;
  CyU3PI2cDeInit : W -> W;
  CyU3PI2cInit : W -> Z * W;
  CyU3PI2cSetConfig : W -> CyU3PI2cConfig_t -> Z * W;
  AdiLogError : W -> string -> Z -> Z -> W
}.
Arguments preamble_buffer_len {W} _.
Arguments CyU3PUsbGetEP0Data {W} _ _ _ _.
Arguments CyU3PI2cReceiveBytes {W} _ _ _ _ _ _.
Arguments CyU3PI2cTransmitBytes {W} _ _ _ _ _ _.
Arguments CyU3PDmaChannelSetupSendBuffer {W} _ _ _ _.
Arguments CyU3PI2cDeInit {W} _ _.
Arguments CyU3PI2cInit {W} _ _.
Arguments CyU3PI2cSetConfig {W} _ _ _.
Arguments AdiLogError {W} _ _ _ _ _.

(** ** The request parser *)

(** The name of this file in the error log ([I2cFunctions_c]). *)
Definition I2cFunctions_c : string := "I2cFunctions.c".

(** The [for] loop of [ParseUSBBuffer], entered with the loop variable at
    [i].  [index] is [None] until the body assigns it.  The bound
    [preamble->length] is read again before every round; a store inside
    [buffer] leaves it as it is. *)
Fixpoint copy_preamble (fuel : nat) (USBBuffer : list byte) (i : Z)
    (index : option Z) (preamble : CyU3PI2cPreamble_t)
  : res (option Z * CyU3PI2cPreamble_t) :=
  match fuel with
  | O => Err OutOfFuel
  | S fuel' =>
      if i <? I2cPreamble.length preamble then
        let index := 11 + i in
        (v <-! rd USBBuffer_arr USBBuffer index;
         buf <-! wr preamble_buffer_arr (I2cPreamble.buffer preamble) i v;
         copy_preamble fuel' USBBuffer (i + 1) (Some index)
           (I2cPreamble.mk buf (I2cPreamble.length preamble)
                           (I2cPreamble.ctrlMask preamble)))%res
      else Ok (index, preamble)
  end.

(** What [ParseUSBBuffer] hands back: its return value and the three
    objects it writes through its pointer arguments. *)
Record parsed := mkParsed {
  p_index : Z;
  p_timeout : Z;
  p_numBytes : Z;
  p_preamble : CyU3PI2cPreamble_t
}.

(** [ParseUSBBuffer (&timeout, &numBytes, &preamble)].  [preamble] is the
    caller's object as it is on entry.

    [USBBuffer[k] << s] is computed in [int]; or-ing it into the [uint32_t]
    converts it to 32 bits unsigned, which is [u32] of the shifted value
    (for [s = 24] and a byte of 128 or more the shift reaches the sign bit,
    where the firmware's compiler gives the two's complement result).  The
    mask takes [USBBuffer[10] << 8], which is below 2^16.

    The length is a byte, so 256 rounds of the loop are enough. *)
Definition ParseUSBBuffer (USBBuffer : list byte)
    (preamble : CyU3PI2cPreamble_t) : res parsed :=
  (b0 <-! rd USBBuffer_arr USBBuffer 0;
   let numBytes := u8 b0 in
   b1 <-! rd USBBuffer_arr USBBuffer 1;
   let numBytes := Z.lor numBytes (u32 (Z.shiftl (u8 b1) 8)) in
   b2 <-! rd USBBuffer_arr USBBuffer 2;
   let numBytes := Z.lor numBytes (u32 (Z.shiftl (u8 b2) 16)) in
   b3 <-! rd USBBuffer_arr USBBuffer 3;
   let numBytes := Z.lor numBytes (u32 (Z.shiftl (u8 b3) 24)) in
   b4 <-! rd USBBuffer_arr USBBuffer 4;
   let timeout := u8 b4 in
   b5 <-! rd USBBuffer_arr USBBuffer 5;
   let timeout := Z.lor timeout (u32 (Z.shiftl (u8 b5) 8)) in
   b6 <-! rd USBBuffer_arr USBBuffer 6;
   let timeout := Z.lor timeout (u32 (Z.shiftl (u8 b6) 16)) in
   b7 <-! rd USBBuffer_arr USBBuffer 7;
   let timeout := Z.lor timeout (u32 (Z.shiftl (u8 b7) 24)) in
   b8 <-! rd USBBuffer_arr USBBuffer 8;
   let length := u8 b8 in
   b9 <-! rd USBBuffer_arr USBBuffer 9;
   let ctrlMask := u8 b9 in
   b10 <-! rd USBBuffer_arr USBBuffer 10;
   let ctrlMask := Z.lor ctrlMask (Z.shiftl (u8 b10) 8) in
   let preamble :=
     I2cPreamble.mk (I2cPreamble.buffer preamble) length ctrlMask in
   r <-! copy_preamble 256 USBBuffer 0 None preamble;
   let '(index, preamble) := r in
   match index with
   | None => Err (Uninitialized "index")
   | Some index =>
       let index := u32 (index + 1) in
       Ok (mkParsed index timeout numBytes preamble)
   end)%res.

(** [ParseUSBBuffer] entered with [index] holding [index0].  The source
    declares [uint32_t index;] without a value: [ParseUSBBuffer] is the
    entry with [None], where the [index++] behind a loop of no rounds reads
    a variable that holds nothing, and C gives the call no meaning.  The
    firmware as built keeps [index] in a register or stack slot, which holds
    a number when the function is entered; the entry with [Some junk] is the
    call as it then runs.  The body is that of [ParseUSBBuffer]. *)
Definition ParseUSBBuffer_from (index0 : option Z) (USBBuffer : list byte)
    (preamble : CyU3PI2cPreamble_t) : res parsed :=
  (b0 <-! rd USBBuffer_arr USBBuffer 0;
   let numBytes := u8 b0 in
   b1 <-! rd USBBuffer_arr USBBuffer 1;
   let numBytes := Z.lor numBytes (u32 (Z.shiftl (u8 b1) 8)) in
   b2 <-! rd USBBuffer_arr USBBuffer 2;
   let numBytes := Z.lor numBytes (u32 (Z.shiftl (u8 b2) 16)) in
   b3 <-! rd USBBuffer_arr USBBuffer 3;
   let numBytes := Z.lor numBytes (u32 (Z.shiftl (u8 b3) 24)) in
   b4 <-! rd USBBuffer_arr USBBuffer 4;
   let timeout := u8 b4 in
   b5 <-! rd USBBuffer_arr USBBuffer 5;
   let timeout := Z.lor timeout (u32 (Z.shiftl (u8 b5) 8)) in
   b6 <-! rd USBBuffer_arr USBBuffer 6;
   let timeout := Z.lor timeout (u32 (Z.shiftl (u8 b6) 16)) in
   b7 <-! rd USBBuffer_arr USBBuffer 7;
   let timeout := Z.lor timeout (u32 (Z.shiftl (u8 b7) 24)) in
   b8 <-! rd USBBuffer_arr USBBuffer 8;
   let length := u8 b8 in
   b9 <-! rd USBBuffer_arr USBBuffer 9;
   let ctrlMask := u8 b9 in
   b10 <-! rd USBBuffer_arr USBBuffer 10;
   let ctrlMask := Z.lor ctrlMask (Z.shiftl (u8 b10) 8) in
   let preamble :=
     I2cPreamble.mk (I2cPreamble.buffer preamble) length ctrlMask in
   r <-! copy_preamble 256 USBBuffer 0 index0 preamble;
   let '(index, preamble) := r in
   match index with
   | None => Err (Uninitialized "index")
   | Some index =>
       let index := u32 (index + 1) in
       Ok (mkParsed index timeout numBytes preamble)
   end)%res.

(** ** The globals and the handlers *)

(** [extern uint8_t USBBuffer[4096]; extern uint8_t BulkBuffer[12288];] *)
Definition USBBuffer_size : Z := 4096.
Definition BulkBuffer_size : Z := 12288.

Section Firmware.
Context {W : Type} (sdk : Sdk W).

Record state := mkState {
  USBBuffer : list byte;
  BulkBuffer : list byte;
  ManualDMABuffer : CyU3PDmaBuffer_t;
  FX3State : BoardState;
  world : W;
  trace : list event
}.

(** A handler either returns to its caller or runs into a fault; the state
    is the one reached at that point. *)
Inductive outcome (A : Type) :=
| Returns (a : A) (s : state)
| Undefined (f : fault) (s : state).
Arguments Returns {A} a s.
Arguments Undefined {A} f s.

Definition M (A : Type) : Type := state -> outcome A.

Definition ret {A} (a : A) : M A := fun s => Returns a s.

Definition bind {A B} (c : M A) (k : A -> M B) : M B :=
  fun s =>
    match c s with
    | Returns a s' => k a s'
    | Undefined f s' => Undefined f s'
    end.

Notation "x <- c ;; k" := (bind c (fun x => k))
  (at level 20, c at level 99, k at level 200, only parsing).

Definition final_state {A} (o : outcome A) : state :=
  match o with
  | Returns _ s => s
  | Undefined _ s => s
  end.

Definition log (e : event) (s : state) : list event := trace s ++ [e].

(** [status = CyU3PUsbGetEP0Data (RequestLength, USBBuffer, &bytesRead)].
    [bytesRead] is a local no handler reads again. *)
Definition usb_get_ep0_data (RequestLength : Z) : M Z :=
  fun s =>
    let '(status, buf, bytesRead, w) :=
      CyU3PUsbGetEP0Data sdk (world s) RequestLength (USBBuffer s) in
    Returns status
      (mkState buf (BulkBuffer s) (ManualDMABuffer s) (FX3State s) w
               (log (EvUsbGetEP0Data RequestLength status bytesRead) s)).

(** [CyU3PI2cPreamble_t preamble = {};] *)
Definition empty_preamble : CyU3PI2cPreamble_t :=
  I2cPreamble.mk (replicate (preamble_buffer_len sdk) Byte.x00) 0 0.

(** [ParseUSBBuffer (&timeout, &numBytes, &preamble)] on the global
    [USBBuffer] and the handler's fresh [preamble].  Where the parse has no
    meaning in C the run of the handler ends, with the fault: the source
    fixes nothing of what the handler does from there on.  What it does as
    built, it does past this point; a property of the calls that holds only
    because the run ends here says nothing about the firmware
    ([AdiI2CWriteHandler_from] below follows a run past the read of the
    unassigned [index]). *)
Definition parse_usb_buffer : M parsed :=
  fun s =>
    match ParseUSBBuffer (USBBuffer s) empty_preamble with
    | Ok p => Returns p s
    | Err f => Undefined f s
    end.

(** [CyU3PI2cReceiveBytes (&preamble, BulkBuffer, numBytes,
    FX3State.I2CRetryCount)] *)
Definition i2c_receive_bytes (preamble : CyU3PI2cPreamble_t)
    (numBytes : Z) : M Z :=
  fun s =>
    let retry := I2CRetryCount (FX3State s) in
    let '(status, bulk, w) :=
      CyU3PI2cReceiveBytes sdk (world s) preamble (BulkBuffer s)
                           numBytes retry in
    Returns status
      (mkState (USBBuffer s) bulk (ManualDMABuffer s) (FX3State s) w
         (log (EvI2cReceiveBytes preamble (Ptr BulkBuffer_arr 0)
                                 numBytes retry status) s)).

(** The bytes a driver finds at [USBBuffer + off], [n] of them as far as
    they lie inside the array. *)
Definition bytes_at (buf : list byte) (off n : Z) : list byte :=
  take (Z.to_nat n) (drop (Z.to_nat off) buf).

(** [CyU3PI2cTransmitBytes (&preamble, USBBuffer + index, numBytes,
    FX3State.I2CRetryCount)] *)
Definition i2c_transmit_bytes (preamble : CyU3PI2cPreamble_t)
    (index numBytes : Z) : M Z :=
  fun s =>
    let retry := I2CRetryCount (FX3State s) in
    let data := bytes_at (USBBuffer s) index numBytes in
    let '(status, w) :=
      CyU3PI2cTransmitBytes sdk (world s) preamble data numBytes retry in
    Returns status
      (mkState (USBBuffer s) (BulkBuffer s) (ManualDMABuffer s)
         (FX3State s) w
         (log (EvI2cTransmitBytes preamble (Ptr USBBuffer_arr index)
                                  data numBytes retry status) s)).

(** The three assignments to [ManualDMABuffer]. *)
Definition set_ManualDMABuffer (b : CyU3PDmaBuffer_t) : M unit :=
  fun s =>
    Returns tt
      (mkState (USBBuffer s) (BulkBuffer s) b (FX3State s) (world s)
               (trace s)).

(** [CyU3PDmaChannelSetupSendBuffer (&ChannelToPC, &ManualDMABuffer)];
    its status is dropped. *)
Definition dma_channel_setup_send_buffer : M unit :=
  fun s =>
    Returns tt
      (mkState (USBBuffer s) (BulkBuffer s) (ManualDMABuffer s)
         (FX3State s)
         (CyU3PDmaChannelSetupSendBuffer sdk (world s)
            (ManualDMABuffer s) (BulkBuffer s))
         (log (EvDmaChannelSetupSendBuffer (ManualDMABuffer s)) s)).

(** [AdiLogError (file, line, status)] *)
Definition adi_log_error (file : string) (line code : Z) : M unit :=
  fun s =>
    Returns tt
      (mkState (USBBuffer s) (BulkBuffer s) (ManualDMABuffer s)
         (FX3State s) (AdiLogError sdk (world s) file line code)
         (log (EvAdiLogError file line code) s)).

(** [CyU3PI2cDeInit ();] its status is dropped. *)
Definition i2c_deinit : M unit :=
  fun s =>
    Returns tt
      (mkState (USBBuffer s) (BulkBuffer s) (ManualDMABuffer s)
         (FX3State s) (CyU3PI2cDeInit sdk (world s)) (log EvI2cDeInit s)).

Definition i2c_init : M Z :=
  fun s =>
    let '(status, w) := CyU3PI2cInit sdk (world s) in
    Returns status
      (mkState (USBBuffer s) (BulkBuffer s) (ManualDMABuffer s)
         (FX3State s) w (log (EvI2cInit status) s)).

Definition i2c_set_config (cfg : CyU3PI2cConfig_t) : M Z :=
  fun s =>
    let '(status, w) := CyU3PI2cSetConfig sdk (world s) cfg in
    Returns status
      (mkState (USBBuffer s) (BulkBuffer s) (ManualDMABuffer s)
         (FX3State s) w (log (EvI2cSetConfig cfg status) s)).

(** [FX3State.I2CBitRate = BitRate;] *)
Definition set_I2CBitRate (BitRate : Z) : M unit :=
  fun s =>
    Returns tt
      (mkState (USBBuffer s) (BulkBuffer s) (ManualDMABuffer s)
         (mkBoardState BitRate (I2CRetryCount (FX3State s)))
         (world s) (trace s)).

(** [ManualDMABuffer.size = 4096] fits the 16 bits of [size];
    [ManualDMABuffer.count = numBytes] stores the [uint32_t] [numBytes] in
    the 16 bits of [count]. *)
Definition AdiI2CReadHandler (RequestLength : Z) : M Z :=
  status <- usb_get_ep0_data RequestLength ;;
  if negb (status =? CY_U3P_SUCCESS) then ret status
  else
    p <- parse_usb_buffer ;;
    status <- i2c_receive_bytes (p_preamble p) (p_numBytes p) ;;
    if negb (status =? CY_U3P_SUCCESS) then ret status
    else
      _ <- set_ManualDMABuffer
             (DmaBuffer.mk (Ptr BulkBuffer_arr 0) 4096
                           (u16 (p_numBytes p))) ;;
      _ <- dma_channel_setup_send_buffer ;;
      ret status.

(** The [AdiLogError] call is on line 78 of the file ([__LINE__]). *)
Definition AdiI2CWriteHandler (RequestLength : Z) : M Z :=
  status <- usb_get_ep0_data RequestLength ;;
  if negb (status =? CY_U3P_SUCCESS) then ret status
  else
    p <- parse_usb_buffer ;;
    let index := p_index p in
    status <- i2c_transmit_bytes (p_preamble p) index (p_numBytes p) ;;
    _ <- (if negb (status =? CY_U3P_SUCCESS)
          then adi_log_error I2cFunctions_c 78 status
          else ret tt) ;;
    ret status.

(** [AdiI2CWriteHandler] in a run in which the parser is entered with
    [index] holding [index0] ([ParseUSBBuffer_from]); the body is that of
    [AdiI2CWriteHandler]. *)
Definition parse_usb_buffer_from (index0 : option Z) : M parsed :=
  fun s =>
    match ParseUSBBuffer_from index0 (USBBuffer s) empty_preamble with
    | Ok p => Returns p s
    | Err f => Undefined f s
    end.

Definition AdiI2CWriteHandler_from (index0 : option Z) (RequestLength : Z)
  : M Z :=
  status <- usb_get_ep0_data RequestLength ;;
  if negb (status =? CY_U3P_SUCCESS) then ret status
  else
    p <- parse_usb_buffer_from index0 ;;
    let index := p_index p in
    status <- i2c_transmit_bytes (p_preamble p) index (p_numBytes p) ;;
    _ <- (if negb (status =? CY_U3P_SUCCESS)
          then adi_log_error I2cFunctions_c 78 status
          else ret tt) ;;
    ret status.

(** The two [if]s under "Filter bit rate". *)
Definition filter_bit_rate (BitRate : Z) : Z :=
  let BitRate := if BitRate <? 100000 then 100000 else BitRate in
  let BitRate := if 1000000 <? BitRate then 1000000 else BitRate in
  BitRate.

(** The [AdiLogError] call is on line 102 of the file. *)
Definition AdiI2CInit (BitRate : Z) (isDMA : bool) : M Z :=
  let BitRate := filter_bit_rate BitRate in
  _ <- i2c_deinit ;;
  status <- i2c_init ;;
  if negb (status =? CY_U3P_SUCCESS) then
    _ <- adi_log_error I2cFunctions_c 102 status ;;
    ret status
  else
    let i2cConfig := mkI2cConfig BitRate 0xFFFFFFFF 0xFFFF isDMA in
    status <- i2c_set_config i2cConfig ;;
    _ <- set_I2CBitRate BitRate ;;
    ret status.

End Firmware.

Arguments state : clear implicits.
Arguments outcome : clear implicits.
Arguments M : clear implicits.
Arguments Returns {W A} a s.
Arguments Undefined {W A} f s.
Arguments mkState {W} _ _ _ _ _ _.
Arguments USBBuffer {W} s.
Arguments BulkBuffer {W} s.
Arguments ManualDMABuffer {W} s.
Arguments FX3State {W} s.
Arguments world {W} s.
Arguments trace {W} s.
Arguments final_state {W A} o.

(** * Part 2: the vocabulary of the properties *)

(** ** What a parse reads and leaves behind *)

(** The value of [USBBuffer[i]]. *)
Definition at_ (buf : list byte) (i : nat) : Z :=
  u8 (default Byte.x00 (buf !! i)).

(** The value the four statements under "Parse num bytes" (and again under
    "Parse timeout") build from four bytes, and the one the two statements
    for [ctrlMask] build from two. *)
Definition le32 (a b c d : Z) : Z :=
  Z.lor (Z.lor (Z.lor a (u32 (Z.shiftl b 8))) (u32 (Z.shiftl c 16)))
        (u32 (Z.shiftl d 24)).

Definition le16 (a b : Z) : Z := Z.lor a (Z.shiftl b 8).

Definition numBytes_of (buf : list byte) : Z :=
  le32 (at_ buf 0) (at_ buf 1) (at_ buf 2) (at_ buf 3).

Definition timeout_of (buf : list byte) : Z :=
  le32 (at_ buf 4) (at_ buf 5) (at_ buf 6) (at_ buf 7).

Definition length_of (buf : list byte) : Z := at_ buf 8.

Definition ctrlMask_of (buf : list byte) : Z :=
  le16 (at_ buf 9) (at_ buf 10).

(** The address bytes a parse leaves in [buffer]: the elements from [from]
    up to [len] come from [USBBuffer[11 ..]], the others are as before. *)
Definition copied (USBBuffer old : list byte) (from len : Z) (new : list byte)
  : Prop :=
  length new = length old /\
  (forall j, from <= j < len ->
             new !! Z.to_nat j = USBBuffer !! Z.to_nat (11 + j)) /\
  (forall j : nat, ~ from <= Z.of_nat j < len -> new !! j = old !! j).

(** ** What a run does *)

Definition is_bus_call (e : event) : bool :=
  match e with
  | EvI2cReceiveBytes _ _ _ _ _ | EvI2cTransmitBytes _ _ _ _ _ _ => true
  | _ => false
  end.

Definition is_staging (e : event) : bool :=
  match e with
  | EvDmaChannelSetupSendBuffer _ => true
  | _ => false
  end.

(** The calls a run started in [s] has made when it ends in [o]. *)
Definition new_events {W A} (s : state W) (o : outcome W A) : list event :=
  drop (length (trace s)) (trace (final_state o)).

Definition returned {W A} (o : outcome W A) : option A :=
  match o with
  | Returns a _ => Some a
  | Undefined _ _ => None
  end.

(** A request is rejected: the handler returns a failure status and has made
    no bus call. *)
Definition rejected {W} (s : state W) (o : outcome W Z) : Prop :=
  (exists status, returned o = Some status /\ status <> CY_U3P_SUCCESS) /\
  forallb (fun e => negb (is_bus_call e)) (new_events s o) = true.

Section RunStates.
Context {W : Type} (sdk : Sdk W).
Implicit Types (s : state W) (n : Z).

(** The state in which the control-endpoint read leaves the module. *)
Definition after_ep0 s n status buf bytesRead w : state W :=
  mkState buf (BulkBuffer s) (ManualDMABuffer s) (FX3State s) w
          (trace s ++ [EvUsbGetEP0Data n status bytesRead]).

(** The state after the bus read, and the one after staging. *)
Definition after_receive s n buf bytesRead p status bulk w : state W :=
  mkState buf bulk (ManualDMABuffer s) (FX3State s) w
    (trace s ++
       [EvUsbGetEP0Data n CY_U3P_SUCCESS bytesRead;
        EvI2cReceiveBytes (p_preamble p) (Ptr BulkBuffer_arr 0)
          (p_numBytes p) (I2CRetryCount (FX3State s)) status]).

Definition staged_descriptor (p : parsed) : CyU3PDmaBuffer_t :=
  DmaBuffer.mk (Ptr BulkBuffer_arr 0) 4096 (u16 (p_numBytes p)).

Definition after_staging s n buf bytesRead p bulk w : state W :=
  mkState buf bulk (staged_descriptor p) (FX3State s)
    (CyU3PDmaChannelSetupSendBuffer sdk w (staged_descriptor p) bulk)
    (trace s ++
       [EvUsbGetEP0Data n CY_U3P_SUCCESS bytesRead;
        EvI2cReceiveBytes (p_preamble p) (Ptr BulkBuffer_arr 0)
          (p_numBytes p) (I2CRetryCount (FX3State s)) CY_U3P_SUCCESS;
        EvDmaChannelSetupSendBuffer (staged_descriptor p)]).

(** The bus write as the write handler issues it. *)
Definition transmit_event s buf p status : event :=
  EvI2cTransmitBytes (p_preamble p) (Ptr USBBuffer_arr (p_index p))
    (bytes_at buf (p_index p) (p_numBytes p)) (p_numBytes p)
    (I2CRetryCount (FX3State s)) status.

(** The state after the bus write, and the one after the error log. *)
Definition after_transmit s n buf bytesRead p status w : state W :=
  mkState buf (BulkBuffer s) (ManualDMABuffer s) (FX3State s) w
    (trace s ++
       [EvUsbGetEP0Data n CY_U3P_SUCCESS bytesRead;
        transmit_event s buf p status]).

Definition after_log s n buf bytesRead p status w : state W :=
  mkState buf (BulkBuffer s) (ManualDMABuffer s) (FX3State s)
    (AdiLogError sdk w I2cFunctions_c 78 status)
    (trace s ++
       [EvUsbGetEP0Data n CY_U3P_SUCCESS bytesRead;
        transmit_event s buf p status;
        EvAdiLogError I2cFunctions_c 78 status]).

End RunStates.

(** The configuration [AdiI2CInit] hands to [CyU3PI2cSetConfig]. *)
Definition applied_config (BitRate : Z) (isDMA : bool) : CyU3PI2cConfig_t :=
  mkI2cConfig (filter_bit_rate BitRate) 0xFFFFFFFF 0xFFFF isDMA.

(** ** The timeout bytes *)

(** Two buffer contents that differ at most in bytes 4 to 7. *)
Definition same_but_timeout (b1 b2 : list byte) : Prop :=
  length b1 = length b2 /\
  forall i : nat, ~ (4 <= i < 8)%nat -> b1 !! i = b2 !! i.

(** A parse result without the timeout. *)
Definition forget_timeout (r : res parsed)
  : res (Z * Z * CyU3PI2cPreamble_t) :=
  (p <-! r; Ok (p_index p, p_numBytes p, p_preamble p))%res.

(** Two outcomes with the same result, the same calls and the same globals,
    but for [USBBuffer], whose contents differ at most in bytes 4 to 7. *)
Definition same_outcome {W} (o1 o2 : outcome W Z) : Prop :=
  match o1, o2 with
  | Returns a1 _, Returns a2 _ => a1 = a2
  | Undefined f1 _, Undefined f2 _ => f1 = f2
  | _, _ => False
  end
  /\ trace (final_state o1) = trace (final_state o2)
  /\ world (final_state o1) = world (final_state o2)
  /\ BulkBuffer (final_state o1) = BulkBuffer (final_state o2)
  /\ ManualDMABuffer (final_state o1) = ManualDMABuffer (final_state o2)
  /\ FX3State (final_state o1) = FX3State (final_state o2)
  /\ same_but_timeout (USBBuffer (final_state o1))
                      (USBBuffer (final_state o2)).

(** Two runs that both return to the caller, with the same status. *)
Definition same_result {W} (o1 o2 : outcome W Z) : Prop :=
  exists status, returned o1 = Some status /\ returned o2 = Some status.

(** ** The wire layout of the specification *)

(** Modelled from the spec: the module has no encoder ("preambles only flow
    host to device"); this one writes a request header in the incoming wire
    format of the specification, all integers little-endian:
    transferLength at offset 0 (4 bytes), timeoutTicks at offset 4
    (4 bytes), preamble.length at offset 8 (1 byte), preamble.controlMask at
    offset 9 (2 bytes), preamble.addressBytes from offset 11. *)
Module Wire.

Record RequestHeader := mkRequestHeader {
  transferLength : Z;
  timeoutTicks : Z;
  preamble_length : Z;
  controlMask : Z;
  addressBytes : list byte
}.

Definition byte_of (z : Z) : byte :=
  default Byte.x00 (Byte.of_N (Z.to_N (z mod 256))).

Definition le_bytes (n : nat) (z : Z) : list byte :=
  map (fun k => byte_of (Z.shiftr z (8 * Z.of_nat k))) (seq 0 n).

Definition encode (h : RequestHeader) : list byte :=
  le_bytes 4 (transferLength h) ++ le_bytes 4 (timeoutTicks h)
  ++ [byte_of (preamble_length h)] ++ le_bytes 2 (controlMask h)
  ++ addressBytes h.

(** The header a parse result stands for: the address bytes are the first
    [length] elements of the preamble's buffer. *)
Definition header_of (p : parsed) : RequestHeader :=
  mkRequestHeader (p_numBytes p) (p_timeout p)
    (I2cPreamble.length (p_preamble p))
    (I2cPreamble.ctrlMask (p_preamble p))
    (take (Z.to_nat (I2cPreamble.length (p_preamble p)))
          (I2cPreamble.buffer (p_preamble p))).

Definition example : RequestHeader :=
  mkRequestHeader 16 1000 2 0x0001 [Byte.x50; Byte.x00].

End Wire.

(** ** More about the calls of a run *)


Definition is_log_call (e : event) : bool :=
  match e with
  | EvAdiLogError _ _ _ => true
  | _ => false
  end.


(** The headers the wire layout can carry into a preamble buffer of [cap]
    elements: 32-bit transfer length and timeout, 16-bit mask, and as many
    address bytes as the length says, between 1 and [cap] and below 256. *)
Definition wire_header_ok (cap : Z) (h : Wire.RequestHeader) : Prop :=
  0 <= Wire.transferLength h < 2 ^ 32
  /\ 0 <= Wire.timeoutTicks h < 2 ^ 32
  /\ 0 <= Wire.controlMask h < 2 ^ 16
  /\ Wire.preamble_length h = Z.of_nat (length (Wire.addressBytes h))
  /\ 1 <= Wire.preamble_length h <= cap
  /\ Wire.preamble_length h < 256.

(** The bit rate in the board state is one the bus configuration can have
    put there. *)
Definition bit_rate_in_range {W} (s : state W) : Prop :=
  100000 <= I2CBitRate (FX3State s) <= 1000000.

(** * Part 3: a test bench

    An SDK to run the handlers on: the preamble buffer has the eight
    elements of the Cypress header, the control endpoint takes
    [host_payload] from the host and puts it at the front of the buffer it
    is given, and every driver call answers with the status scripted for
    it. *)

Record bench := mkBench {
  host_payload : list byte;
  ep0_status : Z;
  rx_status : Z;
  tx_status : Z;
  init_status : Z;
  cfg_status : Z
}.

Definition bench_sdk : Sdk bench :=
  mkSdk bench 8%nat
    (fun w _ buf =>
       (ep0_status w,
        host_payload w ++ drop (length (host_payload w)) buf,
        Z.of_nat (length (host_payload w)),
        mkBench [] (ep0_status w) (rx_status w) (tx_status w)
                (init_status w) (cfg_status w)))
    (fun w _ bulk _ _ => (rx_status w, bulk, w))
    (fun w _ _ _ _ => (tx_status w, w))
    (fun w _ _ => w)
    (fun w => w)
    (fun w => (init_status w, w))
    (fun w _ => (cfg_status w, w))
    (fun w _ _ _ => w).

Definition zeros (n : Z) : list byte := replicate (Z.to_nat n) Byte.x00.

(** The globals at start-up: zeroed buffers, 100 kHz, one retry; [stale] is
    what an earlier request left at the front of [USBBuffer]. *)
Definition bench_state (stale : list byte) (w : bench) : state bench :=
  mkState (stale ++ drop (length stale) (zeros USBBuffer_size))
          (zeros BulkBuffer_size)
          (DmaBuffer.mk (Ptr BulkBuffer_arr 0) 0 0)
          (mkBoardState 100000 1) w [].

(** A bench on which every call succeeds. *)
Definition all_ok (payload : list byte) : bench :=
  mkBench payload 0 0 0 0 0.

Import Byte.

(** transferLength 16, timeout 1000, preamble length 9, mask 1, and nine
    address bytes. *)
Definition payload_length_9 : list byte :=
  [x10; x00; x00; x00; xe8; x03; x00; x00; x09; x01; x00;
   x50; x00; x00; x00; x00; x00; x00; x00; x00].

(** A request with preamble length 0. *)
Definition payload_length_0 : list byte :=
  [x02; x00; x00; x00; xe8; x03; x00; x00; x00; x01; x00; xaa; x55].

(** A header announcing two address bytes, cut off after the header. *)
Definition payload_header_only : list byte :=
  [x0a; x00; x00; x00; xe8; x03; x00; x00; x02; x01; x00].

(** A read of ten bytes with a two-byte preamble. *)
Definition payload_read_10 : list byte :=
  [x0a; x00; x00; x00; xe8; x03; x00; x00; x02; x01; x00; x50; x00].

(** A read of 65546 bytes (0x0001000a) with a two-byte preamble. *)
Definition payload_read_65546 : list byte :=
  [x0a; x00; x01; x00; xe8; x03; x00; x00; x02; x01; x00; x50; x00].

(** A write of eight bytes with preamble length 0, timeout 1000. *)
Definition payload_write_8_length_0 : list byte :=
  [x08; x00; x00; x00; xe8; x03; x00; x00; x00; x01; x00;
   x11; x22; x33; x44; x55; x66; x77; x88].

(** The same request with the timeout 0xFFFFFFFF in place of 1000. *)
Definition payload_write_8_length_0_late : list byte :=
  [x08; x00; x00; x00; xff; xff; xff; xff; x00; x01; x00;
   x11; x22; x33; x44; x55; x66; x77; x88].

(** A write of 4096 bytes behind a one-byte preamble. *)
Definition payload_write_4096 : list byte :=
  [x00; x10; x00; x00; xe8; x03; x00; x00; x01; x01; x00; x50].

(** A write of two bytes behind a one-byte preamble. *)
Definition payload_write_2 : list byte :=
  [x02; x00; x00; x00; xe8; x03; x00; x00; x01; x01; x00; x50; xaa; x55].

(** The same request with the timeout 0xFFFFFFFF in place of 1000. *)
Definition payload_write_2_late : list byte :=
  [x02; x00; x00; x00; xff; xff; xff; xff; x01; x01; x00; x50; xaa; x55].

(** A request of twelve bytes: transfer length 0x04030201, timeout
    0x08070605, one address byte, mask 0x0b0a. *)
Definition payload_counting : list byte :=
  [x01; x02; x03; x04; x05; x06; x07; x08; x01; x0a; x0b; x50].

(** A bench on which the bus write fails with status 69. *)
Definition bus_write_fails : bench := mkBench payload_write_2 0 0 69 0 0.

(** A bench on which the bus initialisation succeeds and applying the
    configuration fails with status 71. *)
Definition set_config_fails : bench := mkBench [] 0 0 0 0 71.

(** A bench on which the bus initialisation fails with status 74. *)
Definition init_fails : bench := mkBench [] 0 0 0 74 0.

(** * Part 4: lemmas about the model *)

(** ** Bytes and little-endian values *)

Lemma u8_range (b : byte) : 0 <= u8 b < 256.
Proof.
  unfold u8. pose proof (Byte.to_N_bounded b) as H. lia.
Qed.

Lemma length_of_range buf : 0 <= length_of buf < 256.
Proof. apply u8_range. Qed.

(** Or-ing a value shifted left by [k] into one below [2^k] adds them. *)
Lemma lor_shiftl_add a b k :
  0 <= k -> 0 <= a < 2 ^ k -> Z.lor a (Z.shiftl b k) = a + b * 2 ^ k.
Proof.
  intros Hk Ha.
  assert (Z.land a (Z.shiftl b k) = 0) as Hdisj.
  { apply Z.bits_inj'. intros i Hi. rewrite Z.land_spec, Z.bits_0.
    destruct (Z.lt_ge_cases i k) as [Hlt|Hge].
    - rewrite Z.shiftl_spec_low by done. apply andb_false_r.
    - destruct (decide (a = 0)) as [->|Hnz]; [by rewrite Z.bits_0|].
      rewrite (Z.bits_above_log2 a i); [done|lia|].
      apply Z.log2_lt_pow2; [lia|].
      apply Z.lt_le_trans with (2 ^ k); [lia|].
      apply Z.pow_le_mono_r; lia. }
  rewrite <- Z.lxor_lor, <- Z.add_nocarry_lxor, Z.shiftl_mul_pow2 by done.
  done.
Qed.

(** The parser's four bytes are a little-endian 32-bit number. *)
Lemma le32_value a b c d :
  0 <= a < 256 -> 0 <= b < 256 -> 0 <= c < 256 -> 0 <= d < 256 ->
  le32 a b c d = a + 256 * b + 65536 * c + 16777216 * d.
Proof.
  intros Ha Hb Hc Hd. unfold le32, u32.
  rewrite !Z.shiftl_mul_pow2 by lia.
  change (2 ^ 8) with 256. change (2 ^ 16) with 65536.
  change (2 ^ 24) with 16777216. change (2 ^ 32) with 4294967296.
  rewrite !Z.mod_small by lia.
  replace (b * 256) with (Z.shiftl b 8)
    by (rewrite Z.shiftl_mul_pow2 by lia; reflexivity).
  replace (c * 65536) with (Z.shiftl c 16)
    by (rewrite Z.shiftl_mul_pow2 by lia; reflexivity).
  replace (d * 16777216) with (Z.shiftl d 24)
    by (rewrite Z.shiftl_mul_pow2 by lia; reflexivity).
  rewrite (lor_shiftl_add a b 8) by lia. change (2 ^ 8) with 256.
  rewrite (lor_shiftl_add _ c 16) by (change (2 ^ 16) with 65536; lia).
  change (2 ^ 16) with 65536.
  rewrite (lor_shiftl_add _ d 24) by (change (2 ^ 24) with 16777216; lia).
  change (2 ^ 24) with 16777216. lia.
Qed.

Lemma le16_value a b :
  0 <= a < 256 -> le16 a b = a + 256 * b.
Proof.
  intros Ha. unfold le16.
  rewrite lor_shiftl_add by (change (2 ^ 8) with 256; lia).
  change (2 ^ 8) with 256. lia.
Qed.

Lemma numBytes_of_value buf :
  numBytes_of buf
  = at_ buf 0 + 256 * at_ buf 1 + 65536 * at_ buf 2 + 16777216 * at_ buf 3.
Proof. apply le32_value; apply u8_range. Qed.

Lemma numBytes_of_range buf : 0 <= numBytes_of buf < 2 ^ 32.
Proof.
  rewrite numBytes_of_value. change (2 ^ 32) with 4294967296.
  pose proof (u8_range (default Byte.x00 (buf !! 0%nat))).
  pose proof (u8_range (default Byte.x00 (buf !! 1%nat))).
  pose proof (u8_range (default Byte.x00 (buf !! 2%nat))).
  pose proof (u8_range (default Byte.x00 (buf !! 3%nat))).
  unfold at_. lia.
Qed.

(** ** Array accesses *)

Lemma rd_lookup a (arr : list byte) i :
  0 <= i < Z.of_nat (length arr) ->
  exists b, rd a arr i = Ok b /\ arr !! Z.to_nat i = Some b.
Proof.
  intros Hi. unfold rd.
  destruct (Z.ltb_spec i 0) as [?|_]; [lia|].
  destruct (lookup_lt_is_Some_2 arr (Z.to_nat i)) as [b Hb]; [lia|].
  rewrite Hb. eauto.
Qed.

Lemma rd_at a (buf : list byte) (i : nat) :
  (i < length buf)%nat ->
  rd a buf (Z.of_nat i) = Ok (default Byte.x00 (buf !! i)).
Proof.
  intros Hi.
  destruct (rd_lookup a buf (Z.of_nat i)) as (b & -> & Hb); [lia|].
  rewrite Nat2Z.id in Hb. by rewrite Hb.
Qed.

Lemma wr_inside a (arr : list byte) i v :
  0 <= i < Z.of_nat (length arr) ->
  wr a arr i v = Ok (<[Z.to_nat i := v]> arr).
Proof.
  intros Hi. unfold wr.
  destruct (Z.leb_spec 0 i); [|lia].
  destruct (Z.ltb_spec i (Z.of_nat (length arr))); [done|lia].
Qed.

Lemma wr_outside a (arr : list byte) i v :
  ~ 0 <= i < Z.of_nat (length arr) -> wr a arr i v = Err (OutOfBounds a i).
Proof.
  intros Hi. unfold wr.
  destruct (Z.leb_spec 0 i), (Z.ltb_spec i (Z.of_nat (length arr)));
    simpl; done || lia.
Qed.

(** ** The copy loop *)

(** With the length inside the array's capacity the loop ends without a
    fault, whatever the fuel above the number of rounds left. *)
Lemma copy_preamble_fits fuel USB : forall i index p,
  0 <= i ->
  I2cPreamble.length p <= Z.of_nat (length (I2cPreamble.buffer p)) ->
  11 + I2cPreamble.length p <= Z.of_nat (length USB) ->
  (Z.to_nat (I2cPreamble.length p - i) < fuel)%nat ->
  exists buf,
    copy_preamble fuel USB i index p =
      Ok (if i <? I2cPreamble.length p
          then Some (11 + (I2cPreamble.length p - 1)) else index,
          I2cPreamble.mk buf (I2cPreamble.length p) (I2cPreamble.ctrlMask p))
    /\ copied USB (I2cPreamble.buffer p) i (I2cPreamble.length p) buf.
Proof.
  induction fuel as [|fuel IH]; intros i index [buf0 len mask]; simpl;
    intros Hi Hcap Husb Hfuel; [lia|].
  destruct (Z.ltb_spec i len) as [Hlt|Hge].
  - destruct (rd_lookup USBBuffer_arr USB (11 + i)) as (v & -> & Hv); [lia|].
    cbn [res_bind]. rewrite wr_inside by lia. cbn [res_bind].
    destruct (IH (i + 1) (Some (11 + i))
                (I2cPreamble.mk (<[Z.to_nat i := v]> buf0) len mask))
      as (buf & Heq & Hlen & Hnew & Hold); simpl;
      rewrite ?length_insert; try lia.
    simpl in Heq. rewrite Heq. exists buf. split.
    + f_equal. f_equal.
      destruct (Z.ltb_spec (i + 1) len); [done|f_equal; lia].
    + simpl in Hlen, Hnew, Hold. rewrite length_insert in Hlen.
      split; [done|]. split.
      * intros j Hj. destruct (decide (j = i)) as [->|Hne].
        -- rewrite Hold by lia.
           rewrite list_lookup_insert_eq by lia. done.
        -- apply Hnew. lia.
      * intros j Hj. rewrite Hold by lia.
        apply list_lookup_insert_ne. lia.
  - exists buf0. split; [done|]. split; [done|]. split; [lia|done].
Qed.

(** With the length beyond the capacity the loop reaches the store to
    [buffer[capacity]], one past the last element. *)
Lemma copy_preamble_overflow fuel USB : forall i index p,
  0 <= i <= Z.of_nat (length (I2cPreamble.buffer p)) ->
  Z.of_nat (length (I2cPreamble.buffer p)) < I2cPreamble.length p ->
  11 + I2cPreamble.length p <= Z.of_nat (length USB) ->
  (Z.to_nat (Z.of_nat (length (I2cPreamble.buffer p)) - i) < fuel)%nat ->
  copy_preamble fuel USB i index p =
    Err (OutOfBounds preamble_buffer_arr
                     (Z.of_nat (length (I2cPreamble.buffer p)))).
Proof.
  induction fuel as [|fuel IH]; intros i index [buf0 len mask]; simpl;
    intros Hi Hcap Husb Hfuel; [lia|].
  destruct (Z.ltb_spec i len) as [Hlt|Hge]; [|lia].
  destruct (rd_lookup USBBuffer_arr USB (11 + i)) as (v & -> & Hv); [lia|].
  cbn [res_bind]. destruct (decide (i = Z.of_nat (length buf0))) as [->|Hne].
  - rewrite wr_outside by lia. done.
  - rewrite wr_inside by lia. cbn [res_bind].
    rewrite (IH (i + 1)); simpl; rewrite ?length_insert; done || lia.
Qed.

(** What the loop has done when it ends without a fault. *)
Lemma copy_preamble_Ok fuel USB : forall i index p idx p',
  copy_preamble fuel USB i index p = Ok (idx, p') ->
  idx = (if i <? I2cPreamble.length p
         then Some (11 + (I2cPreamble.length p - 1)) else index)
  /\ I2cPreamble.length p' = I2cPreamble.length p
  /\ I2cPreamble.ctrlMask p' = I2cPreamble.ctrlMask p
  /\ length (I2cPreamble.buffer p') = length (I2cPreamble.buffer p).
Proof.
  induction fuel as [|fuel IH]; intros i index [buf0 len mask] idx p';
    simpl; [done|].
  destruct (Z.ltb_spec i len) as [Hlt|Hge].
  - destruct (rd _ _ _) as [v|]; [|done]. cbn [res_bind].
    unfold wr. destruct (_ && _); [|done]. cbn [res_bind].
    intros (-> & Hl & Hm & Hb)%IH. simpl in *.
    rewrite length_insert in Hb. repeat split; try done.
    destruct (Z.ltb_spec (i + 1) len); [done|f_equal; lia].
  - intros [= <- <-]. done.
Qed.

(** Fuel above the number of rounds left is never used up. *)
Lemma copy_preamble_fuel fuel USB : forall i index p,
  (Z.to_nat (I2cPreamble.length p - i) < fuel)%nat ->
  copy_preamble fuel USB i index p <> Err OutOfFuel.
Proof.
  induction fuel as [|fuel IH]; intros i index [buf0 len mask]; simpl;
    intros Hfuel; [lia|].
  destruct (Z.ltb_spec i len) as [Hlt|Hge]; [|done].
  unfold rd. destruct (_ <? 0); [done|].
  destruct (_ !! _); [|done]. cbn [res_bind].
  unfold wr. destruct (_ && _); [|done]. cbn [res_bind].
  apply IH. simpl. lia.
Qed.

(** ** The parser *)

(** The eleven header reads are inside any buffer of eleven bytes or more;
    what is left of the parse is the loop and the final increment. *)
Lemma ParseUSBBuffer_header (buf : list byte) pre :
  (11 <= length buf)%nat ->
  ParseUSBBuffer buf pre =
    (r <-! copy_preamble 256 buf 0 None
             (I2cPreamble.mk (I2cPreamble.buffer pre) (length_of buf)
                             (ctrlMask_of buf));
     match fst r with
     | None => Err (Uninitialized "index")
     | Some index =>
         Ok (mkParsed (u32 (index + 1)) (timeout_of buf) (numBytes_of buf)
                      (snd r))
     end)%res.
Proof.
  intros Hlen. unfold ParseUSBBuffer.
  rewrite (rd_at _ buf 0), (rd_at _ buf 1), (rd_at _ buf 2), (rd_at _ buf 3),
    (rd_at _ buf 4), (rd_at _ buf 5), (rd_at _ buf 6), (rd_at _ buf 7),
    (rd_at _ buf 8), (rd_at _ buf 9), (rd_at _ buf 10) by lia.
  cbn [res_bind].
  change (u8 (default Byte.x00 (buf !! 8%nat))) with (length_of buf).
  destruct (copy_preamble _ _ _ _ _) as [[index p]|f]; done.
Qed.

(** A buffer too short for the header stops the parse at its first byte
    missing. *)
Lemma ParseUSBBuffer_short (buf : list byte) pre :
  (length buf < 11)%nat ->
  ParseUSBBuffer buf pre
    = Err (OutOfBounds USBBuffer_arr (Z.of_nat (length buf))).
Proof.
  intros Hlen.
  do 11 (destruct buf as [|? buf]; [reflexivity|]).
  simpl in Hlen. lia.
Qed.

(** The parse is total: its 256 rounds of fuel are never used up. *)
Lemma ParseUSBBuffer_never_out_of_fuel (buf : list byte) pre :
  ParseUSBBuffer buf pre <> Err OutOfFuel.
Proof.
  destruct (decide (length buf < 11)%nat) as [Hs|Hl].
  { rewrite ParseUSBBuffer_short by done. done. }
  rewrite ParseUSBBuffer_header by lia.
  pose proof (length_of_range buf) as Hbyte.
  pose proof (copy_preamble_fuel 256 buf 0 None
                (I2cPreamble.mk (I2cPreamble.buffer pre) (length_of buf)
                                (ctrlMask_of buf))) as Hfuel.
  destruct (copy_preamble _ _ _ _ _) as [[[idx|] p]|f]; simpl; try done.
  intros [= ->]. apply Hfuel; [simpl; lia|done].
Qed.

(** A length between 1 and the capacity, and the address bytes inside the
    buffer: the parse returns, with the offset just behind the address
    bytes. *)
Lemma ParseUSBBuffer_returns (buf : list byte) pre :
  11 + length_of buf <= Z.of_nat (length buf) ->
  1 <= length_of buf <= Z.of_nat (length (I2cPreamble.buffer pre)) ->
  exists addr,
    ParseUSBBuffer buf pre =
      Ok (mkParsed (11 + length_of buf) (timeout_of buf) (numBytes_of buf)
            (I2cPreamble.mk addr (length_of buf) (ctrlMask_of buf)))
    /\ copied buf (I2cPreamble.buffer pre) 0 (length_of buf) addr.
Proof.
  intros Hlen Hrange.
  pose proof (length_of_range buf) as Hbyte.
  rewrite ParseUSBBuffer_header by lia.
  destruct (copy_preamble_fits 256 buf 0 None
              (I2cPreamble.mk (I2cPreamble.buffer pre) (length_of buf)
                              (ctrlMask_of buf)))
    as (addr & -> & Hcopied); simpl; try lia.
  exists addr. split; [|done].
  destruct (Z.ltb_spec 0 (length_of buf)); [|lia]. simpl.
  do 2 f_equal. unfold u32. rewrite Z.mod_small; lia.
Qed.

Lemma ParseUSBBuffer_fits (buf : list byte) pre :
  Z.of_nat (length buf) = USBBuffer_size ->
  1 <= length_of buf <= Z.of_nat (length (I2cPreamble.buffer pre)) ->
  exists addr,
    ParseUSBBuffer buf pre =
      Ok (mkParsed (11 + length_of buf) (timeout_of buf) (numBytes_of buf)
            (I2cPreamble.mk addr (length_of buf) (ctrlMask_of buf)))
    /\ copied buf (I2cPreamble.buffer pre) 0 (length_of buf) addr.
Proof.
  unfold USBBuffer_size. intros Hlen Hrange.
  pose proof (length_of_range buf) as Hbyte.
  apply ParseUSBBuffer_returns; lia.
Qed.

(** Length 0: the loop body never runs, [index] is incremented without ever
    having been assigned. *)
Lemma ParseUSBBuffer_zero (buf : list byte) pre :
  (11 <= length buf)%nat ->
  length_of buf = 0 ->
  ParseUSBBuffer buf pre = Err (Uninitialized "index").
Proof.
  intros Hlen Hz. rewrite ParseUSBBuffer_header by done.
  rewrite Hz. done.
Qed.

(** A length beyond the capacity: the loop stores to [buffer[capacity]]. *)
Lemma ParseUSBBuffer_overflow (buf : list byte) pre :
  Z.of_nat (length buf) = USBBuffer_size ->
  Z.of_nat (length (I2cPreamble.buffer pre)) < length_of buf ->
  ParseUSBBuffer buf pre =
    Err (OutOfBounds preamble_buffer_arr
                     (Z.of_nat (length (I2cPreamble.buffer pre)))).
Proof.
  unfold USBBuffer_size. intros Hlen Hover.
  pose proof (length_of_range buf) as Hbyte.
  rewrite ParseUSBBuffer_header by lia.
  rewrite copy_preamble_overflow; simpl; done || lia.
Qed.

(** What a returning parse has computed. *)
Lemma ParseUSBBuffer_Ok (buf : list byte) pre p :
  ParseUSBBuffer buf pre = Ok p ->
  1 <= length_of buf
  /\ p_index p = 11 + length_of buf
  /\ p_timeout p = timeout_of buf
  /\ p_numBytes p = numBytes_of buf
  /\ I2cPreamble.length (p_preamble p) = length_of buf
  /\ I2cPreamble.ctrlMask (p_preamble p) = ctrlMask_of buf.
Proof.
  intros Hp. destruct (decide (length buf < 11)%nat) as [Hs|Hl].
  { rewrite ParseUSBBuffer_short in Hp by done. done. }
  rewrite ParseUSBBuffer_header in Hp by lia.
  destruct (copy_preamble _ _ _ _ _) as [[idx p']|] eqn:Hloop; [|done].
  apply copy_preamble_Ok in Hloop as (-> & Hl' & Hm & _). simpl in *.
  pose proof (length_of_range buf) as Hbyte.
  destruct (Z.ltb_spec 0 (length_of buf)); [|done].
  injection Hp as <-. simpl. repeat split; try done; try lia.
  unfold u32. rewrite Z.mod_small; lia.
Qed.

(** Every read of the parser is inside the 4096 bytes of [USBBuffer]. *)
Lemma ParseUSBBuffer_reads_inside (buf : list byte) pre i :
  Z.of_nat (length buf) = USBBuffer_size ->
  ParseUSBBuffer buf pre <> Err (OutOfBounds USBBuffer_arr i).
Proof.
  intros Hlen. pose proof (length_of_range buf) as Hbyte.
  destruct (Z.lt_ge_cases (Z.of_nat (length (I2cPreamble.buffer pre)))
                          (length_of buf)) as [Hover|Hfit].
  - rewrite ParseUSBBuffer_overflow by done. done.
  - destruct (decide (length_of buf = 0)) as [Hz|Hnz].
    + unfold USBBuffer_size in Hlen.
      rewrite ParseUSBBuffer_zero by (done || lia). done.
    + destruct (ParseUSBBuffer_fits buf pre) as (addr & -> & _);
        done || lia.
Qed.

(** ** Parses of buffers that differ in the timeout bytes *)

Lemma rd_same a b1 b2 i :
  same_but_timeout b1 b2 -> ~ 4 <= i < 8 -> rd a b1 i = rd a b2 i.
Proof.
  intros [_ Hsame] Hi. unfold rd.
  destruct (Z.ltb_spec i 0); [done|]. rewrite Hsame by lia. done.
Qed.

Lemma at_same b1 b2 (i : nat) :
  same_but_timeout b1 b2 -> ~ (4 <= i < 8)%nat -> at_ b1 i = at_ b2 i.
Proof. intros [_ Hsame] Hi. unfold at_. by rewrite Hsame. Qed.

Lemma copy_preamble_same fuel b1 b2 : forall i index p,
  same_but_timeout b1 b2 -> 0 <= i ->
  copy_preamble fuel b1 i index p = copy_preamble fuel b2 i index p.
Proof.
  induction fuel as [|fuel IH]; intros i index p Hsame Hi; simpl; [done|].
  destruct (_ <? _); [|done].
  rewrite (rd_same _ b1 b2) by (done || lia).
  destruct (rd _ b2 _); [|done]. cbn [res_bind].
  destruct (wr _ _ _ _); [|done]. cbn [res_bind].
  apply IH; done || lia.
Qed.

Lemma ParseUSBBuffer_same b1 b2 pre :
  same_but_timeout b1 b2 ->
  forget_timeout (ParseUSBBuffer b1 pre)
  = forget_timeout (ParseUSBBuffer b2 pre).
Proof.
  intros Hsame. pose proof Hsame as [Hlen _].
  destruct (decide (length b1 < 11)%nat) as [Hshort|Hlong].
  { rewrite !ParseUSBBuffer_short by lia. by rewrite Hlen. }
  rewrite !ParseUSBBuffer_header by lia.
  unfold numBytes_of, length_of, ctrlMask_of.
  rewrite (at_same b1 b2 0), (at_same b1 b2 1), (at_same b1 b2 2),
    (at_same b1 b2 3), (at_same b1 b2 8), (at_same b1 b2 9),
    (at_same b1 b2 10) by (done || lia).
  rewrite (copy_preamble_same 256 b1 b2) by done.
  destruct (copy_preamble _ _ _ _ _) as [[[idx|] p]|]; done.
Qed.

Lemma bytes_at_same b1 b2 off n :
  same_but_timeout b1 b2 -> 8 <= off ->
  bytes_at b1 off n = bytes_at b2 off n.
Proof.
  intros [_ Hsame] Hoff. unfold bytes_at. f_equal.
  apply list_eq. intros i. rewrite !lookup_drop. apply Hsame. lia.
Qed.

(** ** The parser entered with a value in [index] *)

(** The entry with [None] is [ParseUSBBuffer]. *)
Lemma ParseUSBBuffer_from_None (buf : list byte) pre :
  ParseUSBBuffer_from None buf pre = ParseUSBBuffer buf pre.
Proof. reflexivity. Qed.

Lemma ParseUSBBuffer_from_header index0 (buf : list byte) pre :
  (11 <= length buf)%nat ->
  ParseUSBBuffer_from index0 buf pre =
    (r <-! copy_preamble 256 buf 0 index0
             (I2cPreamble.mk (I2cPreamble.buffer pre) (length_of buf)
                             (ctrlMask_of buf));
     match fst r with
     | None => Err (Uninitialized "index")
     | Some index =>
         Ok (mkParsed (u32 (index + 1)) (timeout_of buf) (numBytes_of buf)
                      (snd r))
     end)%res.
Proof.
  intros Hlen. unfold ParseUSBBuffer_from.
  rewrite (rd_at _ buf 0), (rd_at _ buf 1), (rd_at _ buf 2), (rd_at _ buf 3),
    (rd_at _ buf 4), (rd_at _ buf 5), (rd_at _ buf 6), (rd_at _ buf 7),
    (rd_at _ buf 8), (rd_at _ buf 9), (rd_at _ buf 10) by lia.
  cbn [res_bind].
  change (u8 (default Byte.x00 (buf !! 8%nat))) with (length_of buf).
  destruct (copy_preamble _ _ _ _ _) as [[index p]|f]; done.
Qed.

(** A round of the loop assigns [index]: what it held before is lost. *)
Lemma copy_preamble_assigns fuel (buf : list byte) i index0 index1 pre :
  i < I2cPreamble.length pre ->
  copy_preamble fuel buf i index0 pre = copy_preamble fuel buf i index1 pre.
Proof.
  intros Hi. destruct fuel as [|fuel]; [done|]. simpl.
  destruct (Z.ltb_spec i (I2cPreamble.length pre)); [done|lia].
Qed.

(** With a preamble length of 1 or more the parse does not depend on what
    [index] held on entry. *)
Lemma ParseUSBBuffer_from_assigned index0 (buf : list byte) pre :
  1 <= length_of buf ->
  ParseUSBBuffer_from index0 buf pre = ParseUSBBuffer buf pre.
Proof.
  intros Hlen.
  destruct (decide (length buf < 11)%nat) as [Hshort|Hlong].
  { clear Hlen. do 11 (destruct buf as [|? buf]; [reflexivity|]).
    simpl in Hshort. lia. }
  rewrite ParseUSBBuffer_from_header, ParseUSBBuffer_header by lia.
  rewrite (copy_preamble_assigns 256 buf 0 index0 None); [done|].
  simpl. lia.
Qed.

(** With preamble length 0 and a value in [index] the parse returns that
    value plus one, and leaves the preamble's buffer as it was. *)
Lemma ParseUSBBuffer_from_length_0 junk (buf : list byte) pre :
  (11 <= length buf)%nat ->
  length_of buf = 0 ->
  ParseUSBBuffer_from (Some junk) buf pre
  = Ok (mkParsed (u32 (junk + 1)) (timeout_of buf) (numBytes_of buf)
          (I2cPreamble.mk (I2cPreamble.buffer pre) 0 (ctrlMask_of buf))).
Proof.
  intros Hlen Hzero. rewrite ParseUSBBuffer_from_header by done.
  rewrite Hzero. reflexivity.
Qed.

(** ** Runs of the handlers *)

Section Runs.
Context {W : Type} (sdk : Sdk W).
Implicit Types (s : state W) (n : Z).

Lemma new_events_app {A} s (o : outcome W A) evs :
  trace (final_state o) = trace s ++ evs -> new_events s o = evs.
Proof. unfold new_events. intros ->. by rewrite drop_app_length. Qed.

Lemma read_ep0_failed s n status buf bytesRead w :
  CyU3PUsbGetEP0Data sdk (world s) n (USBBuffer s)
    = (status, buf, bytesRead, w) ->
  status <> CY_U3P_SUCCESS ->
  AdiI2CReadHandler sdk n s
    = Returns status (after_ep0 s n status buf bytesRead w).
Proof.
  intros Hep0 Hst. unfold AdiI2CReadHandler, bind, usb_get_ep0_data.
  rewrite Hep0. destruct (Z.eqb_spec status CY_U3P_SUCCESS); done.
Qed.

Lemma read_parse_fault s n buf bytesRead w f :
  CyU3PUsbGetEP0Data sdk (world s) n (USBBuffer s)
    = (CY_U3P_SUCCESS, buf, bytesRead, w) ->
  ParseUSBBuffer buf (empty_preamble sdk) = Err f ->
  AdiI2CReadHandler sdk n s
    = Undefined f (after_ep0 s n CY_U3P_SUCCESS buf bytesRead w).
Proof.
  intros Hep0 Hparse.
  unfold AdiI2CReadHandler, bind, usb_get_ep0_data, parse_usb_buffer.
  rewrite Hep0. simpl. rewrite Hparse. done.
Qed.

Lemma read_parsed s n buf bytesRead w p status bulk w' :
  CyU3PUsbGetEP0Data sdk (world s) n (USBBuffer s)
    = (CY_U3P_SUCCESS, buf, bytesRead, w) ->
  ParseUSBBuffer buf (empty_preamble sdk) = Ok p ->
  CyU3PI2cReceiveBytes sdk w (p_preamble p) (BulkBuffer s) (p_numBytes p)
                       (I2CRetryCount (FX3State s))
    = (status, bulk, w') ->
  AdiI2CReadHandler sdk n s =
    if status =? CY_U3P_SUCCESS
    then Returns CY_U3P_SUCCESS
           (after_staging sdk s n buf bytesRead p bulk w')
    else Returns status (after_receive s n buf bytesRead p status bulk w').
Proof.
  intros Hep0 Hparse Hrecv.
  unfold AdiI2CReadHandler, bind, usb_get_ep0_data, parse_usb_buffer,
    i2c_receive_bytes.
  rewrite Hep0. simpl. rewrite Hparse. simpl. rewrite Hrecv.
  unfold after_staging, after_receive.
  destruct (Z.eqb_spec status CY_U3P_SUCCESS) as [->|Hne]; simpl;
    unfold ret, log; simpl; rewrite <- ?app_assoc; done.
Qed.

Lemma write_ep0_failed s n status buf bytesRead w :
  CyU3PUsbGetEP0Data sdk (world s) n (USBBuffer s)
    = (status, buf, bytesRead, w) ->
  status <> CY_U3P_SUCCESS ->
  AdiI2CWriteHandler sdk n s
    = Returns status (after_ep0 s n status buf bytesRead w).
Proof.
  intros Hep0 Hst. unfold AdiI2CWriteHandler, bind, usb_get_ep0_data.
  rewrite Hep0. destruct (Z.eqb_spec status CY_U3P_SUCCESS); done.
Qed.

Lemma write_parse_fault s n buf bytesRead w f :
  CyU3PUsbGetEP0Data sdk (world s) n (USBBuffer s)
    = (CY_U3P_SUCCESS, buf, bytesRead, w) ->
  ParseUSBBuffer buf (empty_preamble sdk) = Err f ->
  AdiI2CWriteHandler sdk n s
    = Undefined f (after_ep0 s n CY_U3P_SUCCESS buf bytesRead w).
Proof.
  intros Hep0 Hparse.
  unfold AdiI2CWriteHandler, bind, usb_get_ep0_data, parse_usb_buffer.
  rewrite Hep0. simpl. rewrite Hparse. done.
Qed.

Lemma write_parsed s n buf bytesRead w p status w' :
  CyU3PUsbGetEP0Data sdk (world s) n (USBBuffer s)
    = (CY_U3P_SUCCESS, buf, bytesRead, w) ->
  ParseUSBBuffer buf (empty_preamble sdk) = Ok p ->
  CyU3PI2cTransmitBytes sdk w (p_preamble p)
      (bytes_at buf (p_index p) (p_numBytes p)) (p_numBytes p)
      (I2CRetryCount (FX3State s))
    = (status, w') ->
  AdiI2CWriteHandler sdk n s =
    if status =? CY_U3P_SUCCESS
    then Returns status (after_transmit s n buf bytesRead p status w')
    else Returns status (after_log sdk s n buf bytesRead p status w').
Proof.
  intros Hep0 Hparse Htx.
  unfold AdiI2CWriteHandler, bind, usb_get_ep0_data, parse_usb_buffer,
    i2c_transmit_bytes.
  rewrite Hep0. simpl. rewrite Hparse. simpl. rewrite Htx.
  unfold after_transmit, after_log, transmit_event.
  destruct (Z.eqb_spec status CY_U3P_SUCCESS) as [->|Hne]; simpl;
    unfold ret, adi_log_error, log; simpl; rewrite <- ?app_assoc; done.
Qed.

Lemma init_failed s BitRate isDMA status w :
  CyU3PI2cInit sdk (CyU3PI2cDeInit sdk (world s)) = (status, w) ->
  status <> CY_U3P_SUCCESS ->
  AdiI2CInit sdk BitRate isDMA s =
    Returns status
      (mkState (USBBuffer s) (BulkBuffer s) (ManualDMABuffer s)
         (FX3State s) (AdiLogError sdk w I2cFunctions_c 102 status)
         (trace s ++ [EvI2cDeInit; EvI2cInit status;
                      EvAdiLogError I2cFunctions_c 102 status])).
Proof.
  intros Hinit Hst. unfold AdiI2CInit, bind, i2c_deinit, i2c_init.
  simpl. rewrite Hinit.
  destruct (Z.eqb_spec status CY_U3P_SUCCESS); [done|]. simpl.
  unfold adi_log_error, ret, log. simpl. rewrite <- !app_assoc. done.
Qed.

Lemma init_configured s BitRate isDMA w status w' :
  CyU3PI2cInit sdk (CyU3PI2cDeInit sdk (world s)) = (CY_U3P_SUCCESS, w) ->
  CyU3PI2cSetConfig sdk w (applied_config BitRate isDMA) = (status, w') ->
  AdiI2CInit sdk BitRate isDMA s =
    Returns status
      (mkState (USBBuffer s) (BulkBuffer s) (ManualDMABuffer s)
         (mkBoardState (filter_bit_rate BitRate)
                       (I2CRetryCount (FX3State s)))
         w'
         (trace s ++ [EvI2cDeInit; EvI2cInit CY_U3P_SUCCESS;
                      EvI2cSetConfig (applied_config BitRate isDMA)
                                     status])).
Proof.
  intros Hinit Hcfg.
  unfold AdiI2CInit, bind, i2c_deinit, i2c_init, i2c_set_config.
  simpl. rewrite Hinit. simpl.
  fold (applied_config BitRate isDMA). rewrite Hcfg.
  unfold set_I2CBitRate, ret, log. simpl. rewrite <- !app_assoc. done.
Qed.

(** A handler has one way to reject a request, a failure of the
    control-endpoint read: the parse yields no status, and after it the bus
    call is made. *)
Lemma read_rejected_by_ep0 s n :
  rejected s (AdiI2CReadHandler sdk n s) ->
  exists status bytesRead,
    status <> CY_U3P_SUCCESS
    /\ new_events s (AdiI2CReadHandler sdk n s)
       = [EvUsbGetEP0Data n status bytesRead].
Proof.
  destruct (CyU3PUsbGetEP0Data sdk (world s) n (USBBuffer s))
    as [[[st buf] bytesRead] w] eqn:Hep0.
  destruct (decide (st = CY_U3P_SUCCESS)) as [->|Hst].
  2: { rewrite (read_ep0_failed s n st buf bytesRead w Hep0 Hst).
       intros _. exists st, bytesRead. split; [done|].
       by apply new_events_app. }
  destruct (ParseUSBBuffer buf (empty_preamble sdk)) as [p|f] eqn:Hp.
  2: { rewrite (read_parse_fault s n buf bytesRead w f Hep0 Hp).
       intros [(status & Hret & _) _]. done. }
  destruct (CyU3PI2cReceiveBytes sdk w (p_preamble p) (BulkBuffer s)
              (p_numBytes p) (I2CRetryCount (FX3State s)))
    as [[st2 bulk] w'] eqn:Hrecv.
  rewrite (read_parsed s n buf bytesRead w p st2 bulk w' Hep0 Hp Hrecv).
  intros [_ Hno].
  destruct (st2 =? CY_U3P_SUCCESS);
    erewrite new_events_app in Hno by reflexivity; done.
Qed.

Lemma write_rejected_by_ep0 s n :
  rejected s (AdiI2CWriteHandler sdk n s) ->
  exists status bytesRead,
    status <> CY_U3P_SUCCESS
    /\ new_events s (AdiI2CWriteHandler sdk n s)
       = [EvUsbGetEP0Data n status bytesRead].
Proof.
  destruct (CyU3PUsbGetEP0Data sdk (world s) n (USBBuffer s))
    as [[[st buf] bytesRead] w] eqn:Hep0.
  destruct (decide (st = CY_U3P_SUCCESS)) as [->|Hst].
  2: { rewrite (write_ep0_failed s n st buf bytesRead w Hep0 Hst).
       intros _. exists st, bytesRead. split; [done|].
       by apply new_events_app. }
  destruct (ParseUSBBuffer buf (empty_preamble sdk)) as [p|f] eqn:Hp.
  2: { rewrite (write_parse_fault s n buf bytesRead w f Hep0 Hp).
       intros [(status & Hret & _) _]. done. }
  destruct (CyU3PI2cTransmitBytes sdk w (p_preamble p)
              (bytes_at buf (p_index p) (p_numBytes p)) (p_numBytes p)
              (I2CRetryCount (FX3State s))) as [st2 w'] eqn:Htx.
  rewrite (write_parsed s n buf bytesRead w p st2 w' Hep0 Hp Htx).
  intros [_ Hno].
  destruct (st2 =? CY_U3P_SUCCESS);
    erewrite new_events_app in Hno by reflexivity; done.
Qed.

(** The write handler entered with nothing in [index] is
    [AdiI2CWriteHandler]; for a request with a preamble length of 1 or more
    it is so whatever [index] holds. *)
Lemma AdiI2CWriteHandler_from_None s n :
  AdiI2CWriteHandler_from sdk None n s = AdiI2CWriteHandler sdk n s.
Proof. reflexivity. Qed.

Lemma AdiI2CWriteHandler_from_assigned index0 s n status buf bytesRead w :
  CyU3PUsbGetEP0Data sdk (world s) n (USBBuffer s)
    = (status, buf, bytesRead, w) ->
  (status = CY_U3P_SUCCESS -> 1 <= length_of buf) ->
  AdiI2CWriteHandler_from sdk index0 n s = AdiI2CWriteHandler sdk n s.
Proof.
  intros Hep0 Hlen.
  unfold AdiI2CWriteHandler_from, AdiI2CWriteHandler, bind,
    usb_get_ep0_data, parse_usb_buffer_from, parse_usb_buffer.
  rewrite Hep0.
  destruct (Z.eqb_spec status CY_U3P_SUCCESS) as [Hst|Hst]; [|done].
  simpl. by rewrite ParseUSBBuffer_from_assigned by auto.
Qed.

End Runs.

(** Cases of an event being among a few. *)
Ltac elem_cases H :=
  repeat (apply elem_of_cons in H as [H|H]);
  try (apply elem_of_nil in H; destruct H);
  simplify_eq.

(** * Part 5: the claims *)

(** C1 (as amended).  The parser has no MalformedPreamble result and the
    read handler no rejection of its own: it returns a failure without a
    bus call only when the control-endpoint read fails.  For every wire
    payload whose preamble length (the byte at offset 8) exceeds the
    capacity of the preamble's address buffer, the copy loop, which makes
    no check, runs into the store to [buffer[capacity]], outside the array,
    where C gives the program no meaning.  Neither handler returns a
    rejection; the only call made up to that store is the control-endpoint
    read. *)
Theorem C1_overlong_preamble_is_not_rejected
    {W} (sdk : Sdk W) (s : state W) n :
  (rejected s (AdiI2CReadHandler sdk n s) ->
   exists status bytesRead,
     status <> CY_U3P_SUCCESS
     /\ new_events s (AdiI2CReadHandler sdk n s)
        = [EvUsbGetEP0Data n status bytesRead])
  /\ (forall buf bytesRead w,
        CyU3PUsbGetEP0Data sdk (world s) n (USBBuffer s)
          = (CY_U3P_SUCCESS, buf, bytesRead, w) ->
        Z.of_nat (length buf) = USBBuffer_size ->
        Z.of_nat (preamble_buffer_len sdk) < length_of buf ->
        ParseUSBBuffer buf (empty_preamble sdk)
          = Err (OutOfBounds preamble_buffer_arr
                             (Z.of_nat (preamble_buffer_len sdk)))
        /\ AdiI2CReadHandler sdk n s
           = Undefined (OutOfBounds preamble_buffer_arr
                                    (Z.of_nat (preamble_buffer_len sdk)))
                       (after_ep0 s n CY_U3P_SUCCESS buf bytesRead w)
        /\ AdiI2CWriteHandler sdk n s
           = Undefined (OutOfBounds preamble_buffer_arr
                                    (Z.of_nat (preamble_buffer_len sdk)))
                       (after_ep0 s n CY_U3P_SUCCESS buf bytesRead w)
        /\ new_events s (AdiI2CReadHandler sdk n s)
           = [EvUsbGetEP0Data n CY_U3P_SUCCESS bytesRead]
        /\ ~ rejected s (AdiI2CReadHandler sdk n s)).
Proof.
  split; [apply read_rejected_by_ep0|].
  intros buf bytesRead w Hep0 Hlen Hover.
  assert (ParseUSBBuffer buf (empty_preamble sdk)
          = Err (OutOfBounds preamble_buffer_arr
                             (Z.of_nat (preamble_buffer_len sdk)))) as Hp.
  { rewrite ParseUSBBuffer_overflow; simpl; rewrite ?length_replicate; done. }
  rewrite (read_parse_fault sdk s n buf bytesRead w _ Hep0 Hp).
  rewrite (write_parse_fault sdk s n buf bytesRead w _ Hep0 Hp).
  repeat split; try done.
  - by apply new_events_app.
  - intros [(status & Hret & _) _]. done.
Qed.

(** On the bench: nine address bytes announced, eight elements of buffer;
    the run stops after the control-endpoint read. *)
Lemma C1_overlong_preamble_is_not_rejected_witness :
  Z.of_nat (preamble_buffer_len bench_sdk) < length_of payload_length_9
  /\ new_events (bench_state [] (all_ok payload_length_9))
       (AdiI2CReadHandler bench_sdk 20
          (bench_state [] (all_ok payload_length_9)))
     = [EvUsbGetEP0Data 20 CY_U3P_SUCCESS 20].
Proof.
  split; [vm_compute; reflexivity|].
  eapply (proj2 (C1_overlong_preamble_is_not_rejected bench_sdk
                   (bench_state [] (all_ok payload_length_9)) 20)).
  - reflexivity.
  - vm_compute. reflexivity.
  - vm_compute. reflexivity.
Defined.

(** C1 as stated fails: a payload announcing nine address bytes, with the
    eight-element buffer of the SDK, is not rejected: the read handler does
    not return at all. *)
Lemma C1_counterexample :
  Z.of_nat (preamble_buffer_len bench_sdk) < length_of payload_length_9
  /\ returned (AdiI2CReadHandler bench_sdk 20
                 (bench_state [] (all_ok payload_length_9))) = None
  /\ ~ rejected (bench_state [] (all_ok payload_length_9))
         (AdiI2CReadHandler bench_sdk 20
            (bench_state [] (all_ok payload_length_9))).
Proof.
  split; [vm_compute; reflexivity|].
  assert (returned (AdiI2CReadHandler bench_sdk 20
                      (bench_state [] (all_ok payload_length_9))) = None)
    as Hnone by (vm_compute; reflexivity).
  split; [done|].
  intros [(status & Hret & _) _]. rewrite Hnone in Hret. done.
Qed.

(** C2 (as amended).  The parser is not given the number of bytes the
    control transfer delivered and has no TruncatedRequest result; the read
    handler returns a failure without a bus call only when the
    control-endpoint read fails.  For every [bytesRead], also one below
    11 + length, the parser decodes [USBBuffer[0..10]] and copies the
    [length] bytes from offset 11 on, whatever the buffer holds there, and
    the read handler goes on to the bus read.  All reads of the parser are
    inside the 4096 bytes of [USBBuffer]. *)
Theorem C2_parser_ignores_the_payload_length
    {W} (sdk : Sdk W) (s : state W) n :
  (rejected s (AdiI2CReadHandler sdk n s) ->
   exists status bytesRead,
     status <> CY_U3P_SUCCESS
     /\ new_events s (AdiI2CReadHandler sdk n s)
        = [EvUsbGetEP0Data n status bytesRead])
  /\ (forall buf bytesRead w,
        CyU3PUsbGetEP0Data sdk (world s) n (USBBuffer s)
          = (CY_U3P_SUCCESS, buf, bytesRead, w) ->
        Z.of_nat (length buf) = USBBuffer_size ->
        1 <= length_of buf <= Z.of_nat (preamble_buffer_len sdk) ->
        (exists p,
           ParseUSBBuffer buf (empty_preamble sdk) = Ok p
           /\ p_index p = 11 + length_of buf
           /\ p_numBytes p = numBytes_of buf
           /\ copied buf (I2cPreamble.buffer (empty_preamble sdk)) 0
                     (length_of buf) (I2cPreamble.buffer (p_preamble p))
           /\ existsb is_bus_call
                (new_events s (AdiI2CReadHandler sdk n s)) = true
           /\ ~ rejected s (AdiI2CReadHandler sdk n s))
        /\ (forall pre i,
              ParseUSBBuffer buf pre <> Err (OutOfBounds USBBuffer_arr i))).
Proof.
  split; [apply read_rejected_by_ep0|].
  intros buf bytesRead w Hep0 Hlen Hrange. split.
  - destruct (ParseUSBBuffer_fits buf (empty_preamble sdk))
      as (addr & Hp & Hcopied);
      [done|simpl; rewrite length_replicate; done|].
    eexists. split; [exact Hp|]. simpl. do 3 (split; [done|]).
    destruct (CyU3PI2cReceiveBytes sdk w
                (I2cPreamble.mk addr (length_of buf) (ctrlMask_of buf))
                (BulkBuffer s) (numBytes_of buf)
                (I2CRetryCount (FX3State s))) as [[status bulk] w'] eqn:Hrecv.
    rewrite (read_parsed sdk s n buf bytesRead w _ status bulk w' Hep0 Hp)
      by exact Hrecv.
    destruct (Z.eqb_spec status CY_U3P_SUCCESS) as [->|Hne].
    + erewrite new_events_app by reflexivity. split; [done|].
      intros [(st & [= <-] & Hst) _]. done.
    + erewrite new_events_app by reflexivity. split; [done|].
      intros [_ Hno]. erewrite new_events_app in Hno by reflexivity. done.
  - intros pre i. by apply ParseUSBBuffer_reads_inside.
Qed.

(** On the bench: eleven bytes delivered of a request announcing two
    address bytes; the bus read is made. *)
Lemma C2_parser_ignores_the_payload_length_witness :
  Z.of_nat (length payload_header_only) < 11 + length_of payload_header_only
  /\ existsb is_bus_call
       (new_events (bench_state payload_read_10 (all_ok payload_header_only))
          (AdiI2CReadHandler bench_sdk 11
             (bench_state payload_read_10 (all_ok payload_header_only))))
     = true.
Proof.
  split; [vm_compute; reflexivity|].
  destruct (proj2 (C2_parser_ignores_the_payload_length bench_sdk
              (bench_state payload_read_10 (all_ok payload_header_only)) 11)
              (USBBuffer
                 (bench_state payload_read_10 (all_ok payload_header_only)))
              11 (all_ok []))
    as [(p & _ & _ & _ & _ & Hcall & _) _].
  - reflexivity.
  - vm_compute. reflexivity.
  - vm_compute. split; discriminate.
  - exact Hcall.
Defined.

(** C2 as stated fails: the transfer delivers the eleven header bytes of a
    request announcing two address bytes, two fewer than 11 + 2.  The parse
    takes the address bytes 0x50 and 0x00 from what an earlier request left
    at offsets 11 and 12, and the read handler performs the bus read with
    them, stages the result and returns success. *)
Lemma C2_counterexample :
  Z.of_nat (length payload_header_only) < 11 + length_of payload_header_only
  /\ returned (AdiI2CReadHandler bench_sdk 11
                 (bench_state payload_read_10 (all_ok payload_header_only)))
     = Some CY_U3P_SUCCESS
  /\ new_events (bench_state payload_read_10 (all_ok payload_header_only))
       (AdiI2CReadHandler bench_sdk 11
          (bench_state payload_read_10 (all_ok payload_header_only)))
     = [EvUsbGetEP0Data 11 CY_U3P_SUCCESS 11;
        EvI2cReceiveBytes
          (I2cPreamble.mk [x50; x00; x00; x00; x00; x00; x00; x00] 2 1)
          (Ptr BulkBuffer_arr 0) 10 1 CY_U3P_SUCCESS;
        EvDmaChannelSetupSendBuffer
          (DmaBuffer.mk (Ptr BulkBuffer_arr 0) 4096 10)]
  /\ ~ rejected (bench_state payload_read_10 (all_ok payload_header_only))
         (AdiI2CReadHandler bench_sdk 11
            (bench_state payload_read_10 (all_ok payload_header_only))).
Proof.
  split; [vm_compute; reflexivity|].
  assert (returned (AdiI2CReadHandler bench_sdk 11
            (bench_state payload_read_10 (all_ok payload_header_only)))
          = Some CY_U3P_SUCCESS) as Hret by (vm_compute; reflexivity).
  split; [done|]. split; [vm_compute; reflexivity|].
  intros [(status & Hst & Hne) _]. rewrite Hret in Hst.
  injection Hst as <-. done.
Qed.

(** C3 (as amended).  The write handler compares transferLength +
    dataOffset with nothing, and returns a failure without a bus call only
    when the control-endpoint read fails.  For every write request whose
    control read succeeds and whose preamble length is between 1 and the
    capacity, also one in which transferLength + dataOffset exceeds the
    4096 bytes of the control buffer, it issues the bus write for
    transferLength bytes from [USBBuffer + dataOffset] and returns the
    status of that call. *)
Theorem C3_write_length_is_not_checked
    {W} (sdk : Sdk W) (s : state W) n :
  (rejected s (AdiI2CWriteHandler sdk n s) ->
   exists status bytesRead,
     status <> CY_U3P_SUCCESS
     /\ new_events s (AdiI2CWriteHandler sdk n s)
        = [EvUsbGetEP0Data n status bytesRead])
  /\ (forall buf bytesRead w,
        CyU3PUsbGetEP0Data sdk (world s) n (USBBuffer s)
          = (CY_U3P_SUCCESS, buf, bytesRead, w) ->
        Z.of_nat (length buf) = USBBuffer_size ->
        1 <= length_of buf <= Z.of_nat (preamble_buffer_len sdk) ->
        exists preamble status evs,
          new_events s (AdiI2CWriteHandler sdk n s) =
            EvUsbGetEP0Data n CY_U3P_SUCCESS bytesRead
            :: EvI2cTransmitBytes preamble
                 (Ptr USBBuffer_arr (11 + length_of buf))
                 (bytes_at buf (11 + length_of buf) (numBytes_of buf))
                 (numBytes_of buf) (I2CRetryCount (FX3State s)) status
            :: evs
          /\ returned (AdiI2CWriteHandler sdk n s) = Some status
          /\ ~ rejected s (AdiI2CWriteHandler sdk n s)).
Proof.
  split; [apply write_rejected_by_ep0|].
  intros buf bytesRead w Hep0 Hlen Hrange.
  destruct (ParseUSBBuffer_fits buf (empty_preamble sdk))
    as (addr & Hp & _); [done|simpl; rewrite length_replicate; done|].
  set (p := mkParsed _ _ _ _) in Hp.
  destruct (CyU3PI2cTransmitBytes sdk w (p_preamble p)
              (bytes_at buf (p_index p) (p_numBytes p)) (p_numBytes p)
              (I2CRetryCount (FX3State s))) as [status w'] eqn:Htx.
  rewrite (write_parsed sdk s n buf bytesRead w p status w' Hep0 Hp Htx).
  exists (p_preamble p), status.
  destruct (Z.eqb_spec status CY_U3P_SUCCESS) as [->|Hne].
  - exists []. erewrite new_events_app by reflexivity.
    split; [done|]. split; [done|].
    intros [(st & [= <-] & Hst) _]. done.
  - exists [EvAdiLogError I2cFunctions_c 78 status].
    erewrite new_events_app by reflexivity.
    split; [done|]. split; [done|].
    intros [_ Hno]. erewrite new_events_app in Hno by reflexivity. done.
Qed.

(** On the bench: a write of 4096 bytes from offset 12 is not rejected. *)
Lemma C3_write_length_is_not_checked_witness :
  USBBuffer_size
    < numBytes_of payload_write_4096 + (11 + length_of payload_write_4096)
  /\ ~ rejected (bench_state [] (all_ok payload_write_4096))
         (AdiI2CWriteHandler bench_sdk 12
            (bench_state [] (all_ok payload_write_4096))).
Proof.
  split; [vm_compute; reflexivity|].
  destruct (proj2 (C3_write_length_is_not_checked bench_sdk
              (bench_state [] (all_ok payload_write_4096)) 12)
              (USBBuffer (bench_state payload_write_4096
                            (all_ok payload_write_4096)))
              12 (all_ok []))
    as (preamble & status & evs & _ & _ & Hnot).
  - reflexivity.
  - vm_compute. reflexivity.
  - vm_compute. split; discriminate.
  - exact Hnot.
Defined.

(** C3 as stated fails: a write request for 4096 bytes with its data at
    offset 12 asks for bytes up to offset 4108 of the 4096-byte control
    buffer.  The write handler issues the bus write for 4096 bytes, of which
    4084 lie inside the buffer, and returns success. *)
Lemma C3_counterexample :
  USBBuffer_size
    < numBytes_of payload_write_4096 + (11 + length_of payload_write_4096)
  /\ returned (AdiI2CWriteHandler bench_sdk 12
                 (bench_state [] (all_ok payload_write_4096)))
     = Some CY_U3P_SUCCESS
  /\ (exists preamble data,
        new_events (bench_state [] (all_ok payload_write_4096))
          (AdiI2CWriteHandler bench_sdk 12
             (bench_state [] (all_ok payload_write_4096)))
        = [EvUsbGetEP0Data 12 CY_U3P_SUCCESS 12;
           EvI2cTransmitBytes preamble (Ptr USBBuffer_arr 12) data 4096 1
                              CY_U3P_SUCCESS]
        /\ Z.of_nat (length data) = 4084)
  /\ ~ rejected (bench_state [] (all_ok payload_write_4096))
         (AdiI2CWriteHandler bench_sdk 12
            (bench_state [] (all_ok payload_write_4096))).
Proof.
  split; [vm_compute; reflexivity|].
  assert (returned (AdiI2CWriteHandler bench_sdk 12
            (bench_state [] (all_ok payload_write_4096)))
          = Some CY_U3P_SUCCESS) as Hret by (vm_compute; reflexivity).
  split; [done|]. split.
  - eexists _, _. split; [vm_compute; reflexivity|].
    vm_compute. reflexivity.
  - intros [(status & Hst & Hne) _]. rewrite Hret in Hst.
    injection Hst as <-. done.
Qed.

(** C4 (as amended).  The read handler stages data for the bulk upload if
    and only if both the control-endpoint read and the bus read succeed.
    When it stages, it returns success and the descriptor it hands to the
    DMA channel points at the first byte of [BulkBuffer]; its count of
    valid bytes is numBytes, the transfer length parsed from the request,
    as stored in the 16 bits of the member: numBytes modulo 65536, which is
    numBytes itself for every transfer length below 65536.  It is not taken
    from the capacity of the buffer: the size member is the constant 4096.
    The bus read is asked for numBytes in full.  When the control-endpoint
    read or the bus read fails, the handler returns that status and stages
    nothing. *)
Theorem C4_read_handler_staging
    {W} (sdk : Sdk W) (s : state W) n :
  (existsb is_staging (new_events s (AdiI2CReadHandler sdk n s)) = true <->
     (exists bytesRead,
        EvUsbGetEP0Data n CY_U3P_SUCCESS bytesRead
          ∈ new_events s (AdiI2CReadHandler sdk n s)) /\
     (exists preamble dst numBytes retry,
        EvI2cReceiveBytes preamble dst numBytes retry CY_U3P_SUCCESS
          ∈ new_events s (AdiI2CReadHandler sdk n s)))
  /\ (existsb is_staging (new_events s (AdiI2CReadHandler sdk n s)) = true ->
      returned (AdiI2CReadHandler sdk n s) = Some CY_U3P_SUCCESS
      /\ ManualDMABuffer (final_state (AdiI2CReadHandler sdk n s))
         = DmaBuffer.mk (Ptr BulkBuffer_arr 0) 4096
             (numBytes_of
                (USBBuffer (final_state (AdiI2CReadHandler sdk n s)))
              mod 65536)
      /\ (numBytes_of (USBBuffer (final_state (AdiI2CReadHandler sdk n s)))
          < 65536 ->
          ManualDMABuffer (final_state (AdiI2CReadHandler sdk n s))
          = DmaBuffer.mk (Ptr BulkBuffer_arr 0) 4096
              (numBytes_of
                 (USBBuffer (final_state (AdiI2CReadHandler sdk n s)))))
      /\ exists bytesRead preamble,
           new_events s (AdiI2CReadHandler sdk n s) =
             [EvUsbGetEP0Data n CY_U3P_SUCCESS bytesRead;
              EvI2cReceiveBytes preamble (Ptr BulkBuffer_arr 0)
                (numBytes_of
                   (USBBuffer (final_state (AdiI2CReadHandler sdk n s))))
                (I2CRetryCount (FX3State s)) CY_U3P_SUCCESS;
              EvDmaChannelSetupSendBuffer
                (ManualDMABuffer
                   (final_state (AdiI2CReadHandler sdk n s)))])
  /\ (forall status,
        status <> CY_U3P_SUCCESS ->
        (exists bytesRead,
           EvUsbGetEP0Data n status bytesRead
             ∈ new_events s (AdiI2CReadHandler sdk n s))
        \/ (exists preamble dst numBytes retry,
              EvI2cReceiveBytes preamble dst numBytes retry status
                ∈ new_events s (AdiI2CReadHandler sdk n s)) ->
        returned (AdiI2CReadHandler sdk n s) = Some status
        /\ existsb is_staging (new_events s (AdiI2CReadHandler sdk n s))
           = false
        /\ ManualDMABuffer (final_state (AdiI2CReadHandler sdk n s))
           = ManualDMABuffer s).
Proof.
  destruct (CyU3PUsbGetEP0Data sdk (world s) n (USBBuffer s))
    as [[[st buf] bytesRead] w] eqn:Hep0.
  destruct (decide (st = CY_U3P_SUCCESS)) as [->|Hst].
  2: { rewrite (read_ep0_failed sdk s n st buf bytesRead w Hep0 Hst).
       erewrite new_events_app by reflexivity. simpl.
       split; [|split].
       - split; [done|]. intros [[br Hin] _]. elem_cases Hin; try done.
       - done.
       - intros status Hne [[br Hin]|(p & dst & nb & r & Hin)];
           elem_cases Hin; try done. }
  destruct (ParseUSBBuffer buf (empty_preamble sdk)) as [p|f] eqn:Hp.
  2: { rewrite (read_parse_fault sdk s n buf bytesRead w f Hep0 Hp).
       erewrite new_events_app by reflexivity. simpl.
       split; [|split].
       - split; [done|]. intros [_ (p & dst & nb & r & Hin)].
         elem_cases Hin; try done.
       - done.
       - intros status Hne [[br Hin]|(p & dst & nb & r & Hin)];
           elem_cases Hin; try done. }
  destruct (CyU3PI2cReceiveBytes sdk w (p_preamble p) (BulkBuffer s)
              (p_numBytes p) (I2CRetryCount (FX3State s)))
    as [[st2 bulk] w'] eqn:Hrecv.
  rewrite (read_parsed sdk s n buf bytesRead w p st2 bulk w' Hep0 Hp Hrecv).
  apply ParseUSBBuffer_Ok in Hp as (_ & _ & _ & Hnb & _).
  destruct (Z.eqb_spec st2 CY_U3P_SUCCESS) as [->|Hst2];
    erewrite new_events_app by reflexivity; simpl.
  - split; [|split].
    + split; [|done]. intros _. split.
      * exists bytesRead. apply elem_of_cons. by left.
      * eexists _, _, _, _. apply elem_of_cons. right.
        apply elem_of_cons. by left.
    + intros _. unfold staged_descriptor, u16. rewrite Hnb.
      change (2 ^ 16) with 65536.
      split; [done|]. split; [done|]. split; [|by eexists _, _].
      intros Hsmall. rewrite Z.mod_small; [done|].
      pose proof (numBytes_of_range buf). lia.
    + intros status Hne [[br Hin]|(p' & dst & nb & r & Hin)];
        elem_cases Hin; try done.
  - split; [|split].
    + split; [done|]. intros [_ (p' & dst & nb & r & Hin)].
      elem_cases Hin; try done.
    + done.
    + intros status Hne [[br Hin]|(p' & dst & nb & r & Hin)];
        elem_cases Hin; try done.
Qed.

(** On the bench: a read of ten bytes stages ten valid bytes; 4096 is the
    size field of the descriptor. *)
Lemma C4_read_handler_staging_witness :
  numBytes_of payload_read_10 = 10
  /\ ManualDMABuffer
       (final_state
          (AdiI2CReadHandler bench_sdk 13
             (bench_state [] (all_ok payload_read_10))))
     = DmaBuffer.mk (Ptr BulkBuffer_arr 0) 4096 10.
Proof.
  split; [vm_compute; reflexivity|].
  destruct (C4_read_handler_staging bench_sdk
              (bench_state [] (all_ok payload_read_10)) 13)
    as (_ & Hstaged & _).
  destruct Hstaged as (_ & _ & Hdescr & _); [vm_compute; reflexivity|].
  rewrite Hdescr; vm_compute; reflexivity.
Defined.

(** C4 as stated fails: a request for 65546 bytes, with both the
    control-endpoint read and the bus read succeeding, has the bus read
    65546 bytes and stages 10 of them: the count member of the descriptor
    has 16 bits. *)
Lemma C4_counterexample :
  numBytes_of payload_read_65546 = 65546
  /\ new_events (bench_state [] (all_ok payload_read_65546))
       (AdiI2CReadHandler bench_sdk 13
          (bench_state [] (all_ok payload_read_65546)))
     = [EvUsbGetEP0Data 13 CY_U3P_SUCCESS 13;
        EvI2cReceiveBytes
          (I2cPreamble.mk [x50; x00; x00; x00; x00; x00; x00; x00] 2 1)
          (Ptr BulkBuffer_arr 0) 65546 1 CY_U3P_SUCCESS;
        EvDmaChannelSetupSendBuffer
          (DmaBuffer.mk (Ptr BulkBuffer_arr 0) 4096 10)]
  /\ DmaBuffer.count
       (ManualDMABuffer
          (final_state
             (AdiI2CReadHandler bench_sdk 13
                (bench_state [] (all_ok payload_read_65546)))))
     <> numBytes_of
          (USBBuffer
             (final_state
                (AdiI2CReadHandler bench_sdk 13
                   (bench_state [] (all_ok payload_read_65546))))).
Proof.
  split; [vm_compute; reflexivity|].
  split; [vm_compute; reflexivity|].
  vm_compute. discriminate.
Qed.

(** C5.  The header with transferLength 16, timeoutTicks 1000, preamble
    length 2, controlMask 0x0001 and address bytes [0x50, 0x00], written in
    the wire layout and parsed from the front of [USBBuffer] (whatever
    follows it there) into a preamble whose buffer has room for two bytes,
    comes back with every field as it was, and the parser returns the data
    offset 13. *)
Theorem C5_example_round_trip (rest : list byte) (pre : CyU3PI2cPreamble_t) :
  (2 <= length (I2cPreamble.buffer pre))%nat ->
  exists p,
    ParseUSBBuffer (Wire.encode Wire.example ++ rest) pre = Ok p
    /\ Wire.header_of p = Wire.example
    /\ p_index p = 13.
Proof.
  intros Hcap.
  set (buf := Wire.encode Wire.example ++ rest).
  assert (length_of buf = 2) as Hl by reflexivity.
  assert (numBytes_of buf = 16) as Hn by reflexivity.
  assert (timeout_of buf = 1000) as Ht by reflexivity.
  assert (ctrlMask_of buf = 1) as Hm by reflexivity.
  destruct (ParseUSBBuffer_returns buf pre)
    as (addr & -> & Hsize & Hnew & _).
  { rewrite Hl. unfold buf. rewrite length_app. simpl. lia. }
  { lia. }
  eexists. split; [reflexivity|]. rewrite Hl, Hn, Ht, Hm.
  split; [|reflexivity].
  unfold Wire.header_of, Wire.example. simpl. f_equal.
  pose proof (Hnew 0 ltac:(lia)) as H0.
  pose proof (Hnew 1 ltac:(lia)) as H1.
  destruct addr as [|c0 [|c1 addr]]; simpl in Hsize; try lia.
  change (Some c0 = Some x50) in H0. change (Some c1 = Some x00) in H1.
  by simplify_eq.
Qed.

(** On the bench: the example at the front of a zeroed [USBBuffer], parsed
    into the eight-element preamble of the SDK. *)
Lemma C5_example_round_trip_witness :
  exists p,
    ParseUSBBuffer (Wire.encode Wire.example ++ zeros 4083)
                   (empty_preamble bench_sdk) = Ok p
    /\ Wire.header_of p = Wire.example
    /\ p_index p = 13.
Proof.
  apply (C5_example_round_trip (zeros 4083) (empty_preamble bench_sdk)).
  vm_compute. lia.
Defined.

(** C6 (as amended).  Bus configuration persists the effective bit rate
    into the board state exactly when the bus initialisation
    ([CyU3PI2cInit]) succeeds, whatever status applying the configuration
    ([CyU3PI2cSetConfig]) then returns; that status is what the function
    returns.  When the bus initialisation fails, it logs the error with the
    file name, line 102 and the status, returns that status after this one
    attempt, and leaves the board state as it was. *)
Theorem C6_bit_rate_persisted_when_init_succeeds
    {W} (sdk : Sdk W) (s : state W) BitRate isDMA status w :
  CyU3PI2cInit sdk (CyU3PI2cDeInit sdk (world s)) = (status, w) ->
  (status <> CY_U3P_SUCCESS ->
     returned (AdiI2CInit sdk BitRate isDMA s) = Some status
     /\ FX3State (final_state (AdiI2CInit sdk BitRate isDMA s)) = FX3State s
     /\ new_events s (AdiI2CInit sdk BitRate isDMA s)
        = [EvI2cDeInit; EvI2cInit status;
           EvAdiLogError I2cFunctions_c 102 status])
  /\ (status = CY_U3P_SUCCESS ->
      forall status' w',
        CyU3PI2cSetConfig sdk w (applied_config BitRate isDMA)
          = (status', w') ->
        returned (AdiI2CInit sdk BitRate isDMA s) = Some status'
        /\ FX3State (final_state (AdiI2CInit sdk BitRate isDMA s))
           = mkBoardState (filter_bit_rate BitRate)
                          (I2CRetryCount (FX3State s))
        /\ new_events s (AdiI2CInit sdk BitRate isDMA s)
           = [EvI2cDeInit; EvI2cInit CY_U3P_SUCCESS;
              EvI2cSetConfig (applied_config BitRate isDMA) status']).
Proof.
  intros Hinit. split.
  - intros Hst. rewrite (init_failed sdk s BitRate isDMA status w Hinit Hst).
    erewrite new_events_app by reflexivity. done.
  - intros -> status' w' Hcfg.
    rewrite (init_configured sdk s BitRate isDMA w status' w' Hinit Hcfg).
    erewrite new_events_app by reflexivity. done.
Qed.

(** On the bench: the bus initialisation fails with status 74. *)
Lemma C6_bit_rate_persisted_when_init_succeeds_witness :
  returned (AdiI2CInit bench_sdk 400000 true (bench_state [] init_fails))
    = Some 74
  /\ FX3State (final_state (AdiI2CInit bench_sdk 400000 true
                              (bench_state [] init_fails)))
     = FX3State (bench_state [] init_fails)
  /\ new_events (bench_state [] init_fails)
       (AdiI2CInit bench_sdk 400000 true (bench_state [] init_fails))
     = [EvI2cDeInit; EvI2cInit 74; EvAdiLogError I2cFunctions_c 102 74].
Proof.
  apply (C6_bit_rate_persisted_when_init_succeeds bench_sdk
           (bench_state [] init_fails) 400000 true 74 init_fails).
  - reflexivity.
  - discriminate.
Defined.

(** C6 as stated fails: the bus initialisation succeeds and applying the
    configuration fails.  The configuration has not succeeded, the function
    returns the failure, and the board state carries the new bit rate
    400000 in place of 100000. *)
Lemma C6_counterexample :
  returned (AdiI2CInit bench_sdk 400000 true
              (bench_state [] set_config_fails)) = Some 71
  /\ 71 <> CY_U3P_SUCCESS
  /\ I2CBitRate (FX3State (bench_state [] set_config_fails)) = 100000
  /\ I2CBitRate
       (FX3State (final_state (AdiI2CInit bench_sdk 400000 true
                                 (bench_state [] set_config_fails))))
     = 400000.
Proof. repeat split; try (vm_compute; reflexivity). discriminate. Qed.

(** C7.  For every requested bit rate the rate the bus configuration works
    with lies between 100 kHz and 1 MHz: a request below 100000 becomes
    100000, one above 1000000 becomes 1000000, one in between is kept; so
    50000 yields 100000, 2000000 yields 1000000 and 400000 stays 400000.
    That rate is the one handed to [CyU3PI2cSetConfig] and the one stored in
    the board state. *)
Theorem C7_bit_rate_is_clamped :
  (forall BitRate,
     100000 <= filter_bit_rate BitRate <= 1000000
     /\ (BitRate < 100000 -> filter_bit_rate BitRate = 100000)
     /\ (1000000 < BitRate -> filter_bit_rate BitRate = 1000000)
     /\ (100000 <= BitRate <= 1000000 -> filter_bit_rate BitRate = BitRate))
  /\ filter_bit_rate 50000 = 100000
  /\ filter_bit_rate 2000000 = 1000000
  /\ filter_bit_rate 400000 = 400000
  /\ (forall W (sdk : Sdk W) (s : state W) BitRate isDMA w,
        CyU3PI2cInit sdk (CyU3PI2cDeInit sdk (world s))
          = (CY_U3P_SUCCESS, w) ->
        exists status,
          new_events s (AdiI2CInit sdk BitRate isDMA s)
            = [EvI2cDeInit; EvI2cInit CY_U3P_SUCCESS;
               EvI2cSetConfig
                 (mkI2cConfig (filter_bit_rate BitRate) 0xFFFFFFFF 0xFFFF
                              isDMA) status]
          /\ I2CBitRate
               (FX3State (final_state (AdiI2CInit sdk BitRate isDMA s)))
             = filter_bit_rate BitRate).
Proof.
  split; [|repeat split; try reflexivity].
  - intros BitRate. unfold filter_bit_rate.
    destruct (Z.ltb_spec BitRate 100000);
      [|destruct (Z.ltb_spec 1000000 BitRate)]; simpl; lia.
  - intros W sdk s BitRate isDMA w Hinit.
    destruct (CyU3PI2cSetConfig sdk w (applied_config BitRate isDMA))
      as [status w'] eqn:Hcfg.
    exists status.
    rewrite (init_configured sdk s BitRate isDMA w status w' Hinit Hcfg).
    erewrite new_events_app by reflexivity. done.
Qed.

(** On the bench: a request for 50000 leaves 100000 in the board state. *)
Lemma C7_bit_rate_is_clamped_witness :
  I2CBitRate
    (FX3State (final_state (AdiI2CInit bench_sdk 50000 true
                              (bench_state [] (all_ok [])))))
  = 100000.
Proof.
  destruct C7_bit_rate_is_clamped as (_ & H50 & _ & _ & Hrun).
  destruct (Hrun bench (bench_sdk) (bench_state [] (all_ok [])) 50000 true
                 (all_ok []) eq_refl) as (status & _ & Hrate).
  rewrite Hrate. exact H50.
Defined.

(** C8.  Whenever the bus write of the write handler returns a status other
    than success, the handler next logs the failure under the tag of this
    file and line 78 with that status, and then returns that status to its
    caller. *)
Theorem C8_failed_bus_write_is_logged_and_returned
    {W} (sdk : Sdk W) (s : state W) n preamble src data numBytes retry status :
  EvI2cTransmitBytes preamble src data numBytes retry status
    ∈ new_events s (AdiI2CWriteHandler sdk n s) ->
  status <> CY_U3P_SUCCESS ->
  returned (AdiI2CWriteHandler sdk n s) = Some status
  /\ exists bytesRead,
       new_events s (AdiI2CWriteHandler sdk n s)
       = [EvUsbGetEP0Data n CY_U3P_SUCCESS bytesRead;
          EvI2cTransmitBytes preamble src data numBytes retry status;
          EvAdiLogError I2cFunctions_c 78 status].
Proof.
  destruct (CyU3PUsbGetEP0Data sdk (world s) n (USBBuffer s))
    as [[[st buf] bytesRead] w] eqn:Hep0.
  destruct (decide (st = CY_U3P_SUCCESS)) as [->|Hst].
  2: { rewrite (write_ep0_failed sdk s n st buf bytesRead w Hep0 Hst).
       erewrite new_events_app by reflexivity.
       intros Hin. elem_cases Hin. }
  destruct (ParseUSBBuffer buf (empty_preamble sdk)) as [p|f] eqn:Hp.
  2: { rewrite (write_parse_fault sdk s n buf bytesRead w f Hep0 Hp).
       erewrite new_events_app by reflexivity.
       intros Hin. elem_cases Hin. }
  destruct (CyU3PI2cTransmitBytes sdk w (p_preamble p)
              (bytes_at buf (p_index p) (p_numBytes p)) (p_numBytes p)
              (I2CRetryCount (FX3State s))) as [st2 w'] eqn:Htx.
  rewrite (write_parsed sdk s n buf bytesRead w p st2 w' Hep0 Hp Htx).
  destruct (Z.eqb_spec st2 CY_U3P_SUCCESS) as [->|Hst2];
    erewrite new_events_app by reflexivity;
    intros Hin Hne; unfold transmit_event in *; elem_cases Hin.
  split; [done|]. by exists bytesRead.
Qed.

(** On the bench: the bus write of two bytes fails with status 69. *)
Lemma C8_failed_bus_write_is_logged_and_returned_witness :
  returned (AdiI2CWriteHandler bench_sdk 14 (bench_state [] bus_write_fails))
    = Some 69
  /\ exists bytesRead,
       new_events (bench_state [] bus_write_fails)
         (AdiI2CWriteHandler bench_sdk 14 (bench_state [] bus_write_fails))
       = [EvUsbGetEP0Data 14 CY_U3P_SUCCESS bytesRead;
          EvI2cTransmitBytes
            (I2cPreamble.mk [x50; x00; x00; x00; x00; x00; x00; x00] 1 1)
            (Ptr USBBuffer_arr 12) [xaa; x55] 2 1 69;
          EvAdiLogError I2cFunctions_c 78 69].
Proof.
  apply (C8_failed_bus_write_is_logged_and_returned bench_sdk
           (bench_state [] bus_write_fails) 14).
  - vm_compute. apply elem_of_cons. right. apply elem_of_cons. by left.
  - discriminate.
Defined.

(** C9 (as amended).  For requests whose preamble length is between 1 and
    the capacity of the preamble's address buffer, the timeout parsed from
    bytes 4 to 7 of the payload has no effect on either handler.  Take two
    runs from the same globals in which the control-endpoint read returns
    the same status and byte count and leaves buffer contents that differ
    at most in bytes 4 to 7, with such a length when the read succeeds.
    The read handler, and likewise the write handler, returns in both runs,
    with the same status, and makes the same calls with the same arguments
    in both, the bus transactions among them; the final states differ at
    most in those four bytes of [USBBuffer]. *)
Theorem C9_timeout_has_no_effect
    {W} (sdk : Sdk W) (s1 s2 : state W) n status b1 b2 bytesRead w :
  BulkBuffer s1 = BulkBuffer s2 ->
  ManualDMABuffer s1 = ManualDMABuffer s2 ->
  FX3State s1 = FX3State s2 ->
  trace s1 = trace s2 ->
  CyU3PUsbGetEP0Data sdk (world s1) n (USBBuffer s1)
    = (status, b1, bytesRead, w) ->
  CyU3PUsbGetEP0Data sdk (world s2) n (USBBuffer s2)
    = (status, b2, bytesRead, w) ->
  same_but_timeout b1 b2 ->
  (status = CY_U3P_SUCCESS ->
   Z.of_nat (length b1) = USBBuffer_size
   /\ 1 <= length_of b1 <= Z.of_nat (preamble_buffer_len sdk)) ->
  (same_result (AdiI2CReadHandler sdk n s1) (AdiI2CReadHandler sdk n s2)
   /\ same_outcome (AdiI2CReadHandler sdk n s1)
                   (AdiI2CReadHandler sdk n s2))
  /\ (same_result (AdiI2CWriteHandler sdk n s1)
                  (AdiI2CWriteHandler sdk n s2)
      /\ same_outcome (AdiI2CWriteHandler sdk n s1)
                      (AdiI2CWriteHandler sdk n s2)).
Proof.
  intros Hb Hd Hf Ht Hep1 Hep2 Hsame Hrange.
  destruct (decide (status = CY_U3P_SUCCESS)) as [->|Hst].
  2: { rewrite (read_ep0_failed sdk s1 n status b1 bytesRead w Hep1 Hst),
         (read_ep0_failed sdk s2 n status b2 bytesRead w Hep2 Hst),
         (write_ep0_failed sdk s1 n status b1 bytesRead w Hep1 Hst),
         (write_ep0_failed sdk s2 n status b2 bytesRead w Hep2 Hst).
       unfold same_outcome, same_result. simpl. rewrite Hb, Hd, Hf, Ht.
       split; (split; [by exists status|done]). }
  destruct Hrange as [Hsize Hlen]; [done|].
  destruct (ParseUSBBuffer_returns b1 (empty_preamble sdk)) as (addr & Hp1 & _).
  { pose proof (length_of_range b1). unfold USBBuffer_size in Hsize. lia. }
  { simpl. rewrite length_replicate. lia. }
  remember (mkParsed _ _ _ _) as p1 eqn:Ep1 in Hp1.
  assert (8 <= p_index p1) as Hi1 by (rewrite Ep1; simpl; lia).
  clear Ep1 addr.
  pose proof (ParseUSBBuffer_same b1 b2 (empty_preamble sdk) Hsame) as Hparse.
  rewrite Hp1 in Hparse.
  destruct (ParseUSBBuffer b2 (empty_preamble sdk)) as [p2|f2] eqn:Hp2;
    simpl in Hparse; [|done].
  injection Hparse as Hidx Hnb Hpre.
  split.
  - destruct (CyU3PI2cReceiveBytes sdk w (p_preamble p1) (BulkBuffer s1)
                (p_numBytes p1) (I2CRetryCount (FX3State s1)))
      as [[st bulk'] w'] eqn:Hrecv.
    rewrite (read_parsed sdk s1 n b1 bytesRead w p1 st bulk' w' Hep1 Hp1)
      by exact Hrecv.
    rewrite (read_parsed sdk s2 n b2 bytesRead w p2 st bulk' w' Hep2 Hp2)
      by (rewrite <- Hpre, <- Hnb, <- Hb, <- Hf; exact Hrecv).
    unfold same_result, same_outcome, after_staging, after_receive,
      staged_descriptor.
    rewrite <- Hpre, <- Hnb, <- Hd, <- Hf, <- Ht.
    destruct (st =? CY_U3P_SUCCESS); simpl; (split; [by eexists|done]).
  - destruct (CyU3PI2cTransmitBytes sdk w (p_preamble p1)
                (bytes_at b1 (p_index p1) (p_numBytes p1)) (p_numBytes p1)
                (I2CRetryCount (FX3State s1))) as [st w'] eqn:Htx.
    assert (bytes_at b2 (p_index p2) (p_numBytes p2)
            = bytes_at b1 (p_index p1) (p_numBytes p1)) as Hdata.
    { rewrite <- Hidx, <- Hnb. symmetry. apply bytes_at_same; [done|lia]. }
    rewrite (write_parsed sdk s1 n b1 bytesRead w p1 st w' Hep1 Hp1)
      by exact Htx.
    rewrite (write_parsed sdk s2 n b2 bytesRead w p2 st w' Hep2 Hp2)
      by (rewrite Hdata, <- Hpre, <- Hnb, <- Hf; exact Htx).
    unfold same_result, same_outcome, after_transmit, after_log,
      transmit_event.
    rewrite Hdata, <- Hpre, <- Hnb, <- Hidx, <- Hb, <- Hd, <- Hf, <- Ht.
    destruct (st =? CY_U3P_SUCCESS); simpl; (split; [by eexists|done]).
Qed.

(** On the bench: the same write request with timeout 1000 and with timeout
    0xFFFFFFFF. *)
Lemma C9_timeout_has_no_effect_witness :
  1 <= length_of (USBBuffer (bench_state payload_write_2 (all_ok [])))
    <= Z.of_nat (preamble_buffer_len bench_sdk)
  /\ same_result
       (AdiI2CWriteHandler bench_sdk 14
          (bench_state [] (all_ok payload_write_2)))
       (AdiI2CWriteHandler bench_sdk 14
          (bench_state [] (all_ok payload_write_2_late)))
  /\ same_outcome
       (AdiI2CWriteHandler bench_sdk 14
          (bench_state [] (all_ok payload_write_2)))
       (AdiI2CWriteHandler bench_sdk 14
          (bench_state [] (all_ok payload_write_2_late))).
Proof.
  split; [vm_compute; split; discriminate|].
  refine (proj2 (C9_timeout_has_no_effect bench_sdk
            (bench_state [] (all_ok payload_write_2))
            (bench_state [] (all_ok payload_write_2_late)) 14 0
            (USBBuffer (bench_state payload_write_2 (all_ok [])))
            (USBBuffer (bench_state payload_write_2_late (all_ok [])))
            14 (all_ok []) eq_refl eq_refl eq_refl eq_refl eq_refl eq_refl
            _ _)).
  - split; [vm_compute; reflexivity|].
    intros i Hi.
    do 8 (destruct i as [|i]; [reflexivity || lia|]).
    reflexivity.
  - intros _. vm_compute. repeat split; discriminate.
Defined.

(** C9 as stated fails for a request with preamble length 0.  The write
    handler takes its data from [USBBuffer + index], and [index] is the
    variable the parser increments without ever having assigned it: C gives
    the run no meaning and the handler no result.  In a run in which the
    slot of [index] holds 0, the data start at [USBBuffer + 1]: of a write
    of eight bytes, four are bytes 4 to 7 of the payload, and the two
    requests, which differ in the timeout alone, put different data on the
    bus. *)
Lemma C9_counterexample :
  same_but_timeout
    (USBBuffer (bench_state payload_write_8_length_0 (all_ok [])))
    (USBBuffer (bench_state payload_write_8_length_0_late (all_ok [])))
  /\ length_of (USBBuffer (bench_state payload_write_8_length_0 (all_ok [])))
     = 0
  /\ AdiI2CWriteHandler bench_sdk 19
       (bench_state [] (all_ok payload_write_8_length_0))
     = Undefined (Uninitialized "index")
         (after_ep0 (bench_state [] (all_ok payload_write_8_length_0)) 19
            CY_U3P_SUCCESS
            (USBBuffer (bench_state payload_write_8_length_0 (all_ok [])))
            19 (all_ok []))
  /\ ~ same_result
         (AdiI2CWriteHandler bench_sdk 19
            (bench_state [] (all_ok payload_write_8_length_0)))
         (AdiI2CWriteHandler bench_sdk 19
            (bench_state [] (all_ok payload_write_8_length_0_late)))
  /\ new_events (bench_state [] (all_ok payload_write_8_length_0))
       (AdiI2CWriteHandler_from bench_sdk (Some 0) 19
          (bench_state [] (all_ok payload_write_8_length_0)))
     = [EvUsbGetEP0Data 19 CY_U3P_SUCCESS 19;
        EvI2cTransmitBytes
          (I2cPreamble.mk [x00; x00; x00; x00; x00; x00; x00; x00] 0 1)
          (Ptr USBBuffer_arr 1)
          [x00; x00; x00; xe8; x03; x00; x00; x00] 8 1 CY_U3P_SUCCESS]
  /\ new_events (bench_state [] (all_ok payload_write_8_length_0_late))
       (AdiI2CWriteHandler_from bench_sdk (Some 0) 19
          (bench_state [] (all_ok payload_write_8_length_0_late)))
     = [EvUsbGetEP0Data 19 CY_U3P_SUCCESS 19;
        EvI2cTransmitBytes
          (I2cPreamble.mk [x00; x00; x00; x00; x00; x00; x00; x00] 0 1)
          (Ptr USBBuffer_arr 1)
          [x00; x00; x00; xff; xff; xff; xff; x00] 8 1 CY_U3P_SUCCESS].
Proof.
  split.
  { split; [vm_compute; reflexivity|].
    intros i Hi.
    do 8 (destruct i as [|i]; [reflexivity || lia|]).
    reflexivity. }
  split; [vm_compute; reflexivity|].
  assert (AdiI2CWriteHandler bench_sdk 19
            (bench_state [] (all_ok payload_write_8_length_0))
          = Undefined (Uninitialized "index")
              (after_ep0 (bench_state [] (all_ok payload_write_8_length_0))
                 19 CY_U3P_SUCCESS
                 (USBBuffer
                    (bench_state payload_write_8_length_0 (all_ok [])))
                 19 (all_ok []))) as Hrun by (vm_compute; reflexivity).
  split; [exact Hrun|].
  split; [|split; vm_compute; reflexivity].
  intros (status & Hret & _). rewrite Hrun in Hret. done.
Qed.

(** C10 (as amended).  For every payload whose preamble length is between 1
    and the capacity of the preamble's address buffer, the parser returns
    the data offset 11 + length.  For length 0 the loop body never assigns
    [index], and the offset is taken from that unassigned variable: the
    parse has no defined result.  For a length above the capacity the loop
    stores outside the address buffer, and the parse has no defined result
    either. *)
Theorem C10_data_offset (buf : list byte) (pre : CyU3PI2cPreamble_t) :
  Z.of_nat (length buf) = USBBuffer_size ->
  (1 <= length_of buf <= Z.of_nat (length (I2cPreamble.buffer pre)) ->
     exists p, ParseUSBBuffer buf pre = Ok p
               /\ p_index p = 11 + length_of buf)
  /\ (length_of buf = 0 ->
      ParseUSBBuffer buf pre = Err (Uninitialized "index"))
  /\ (Z.of_nat (length (I2cPreamble.buffer pre)) < length_of buf ->
      ParseUSBBuffer buf pre
        = Err (OutOfBounds preamble_buffer_arr
                           (Z.of_nat (length (I2cPreamble.buffer pre))))).
Proof.
  intros Hlen. split; [|split].
  - intros Hrange.
    destruct (ParseUSBBuffer_fits buf pre Hlen Hrange) as (addr & -> & _).
    eexists. split; reflexivity.
  - intros Hz. apply ParseUSBBuffer_zero; [|done].
    unfold USBBuffer_size in Hlen. lia.
  - intros Hover. by apply ParseUSBBuffer_overflow.
Qed.

(** On the bench: a preamble of two bytes gives offset 13; a preamble of
    length 0 gives no defined result. *)
Lemma C10_data_offset_witness :
  (exists p,
     ParseUSBBuffer (USBBuffer (bench_state payload_read_10 (all_ok [])))
                    (empty_preamble bench_sdk) = Ok p
     /\ p_index p = 13)
  /\ ParseUSBBuffer (USBBuffer (bench_state payload_length_0 (all_ok [])))
                    (empty_preamble bench_sdk)
     = Err (Uninitialized "index").
Proof.
  split.
  - apply (C10_data_offset
             (USBBuffer (bench_state payload_read_10 (all_ok [])))
             (empty_preamble bench_sdk)).
    + vm_compute. reflexivity.
    + vm_compute. split; discriminate.
  - apply (C10_data_offset
             (USBBuffer (bench_state payload_length_0 (all_ok [])))
             (empty_preamble bench_sdk)).
    + vm_compute. reflexivity.
    + vm_compute. reflexivity.
Defined.

(** C10 as stated fails: with preamble length 9, which is at least 1, and
    the eight-element buffer of the SDK, the parser does not return the
    offset 20; it stores to [buffer[8]]. *)
Lemma C10_counterexample :
  1 <= length_of (USBBuffer (bench_state payload_length_9 (all_ok [])))
  /\ ParseUSBBuffer (USBBuffer (bench_state payload_length_9 (all_ok [])))
                    (empty_preamble bench_sdk)
     = Err (OutOfBounds preamble_buffer_arr 8)
  /\ ~ exists p,
         ParseUSBBuffer (USBBuffer (bench_state payload_length_9 (all_ok [])))
                        (empty_preamble bench_sdk) = Ok p
         /\ p_index p
            = 11 + length_of
                     (USBBuffer (bench_state payload_length_9 (all_ok []))).
Proof.
  assert (ParseUSBBuffer
            (USBBuffer (bench_state payload_length_9 (all_ok [])))
            (empty_preamble bench_sdk)
          = Err (OutOfBounds preamble_buffer_arr 8)) as Hp
    by (vm_compute; reflexivity).
  split; [vm_compute; discriminate|]. split; [done|].
  intros (p & Hok & _). rewrite Hp in Hok. done.
Qed.

(** * Part 6: further properties of the module *)

(** ** Every run of a handler *)

Section AllRuns.
Context {W : Type} (sdk : Sdk W).
Implicit Types (s : state W) (n : Z).

(** The four ways a run of the read handler can go. *)
Lemma read_runs s n :
  (exists status buf bytesRead w,
     CyU3PUsbGetEP0Data sdk (world s) n (USBBuffer s)
       = (status, buf, bytesRead, w)
     /\ status <> CY_U3P_SUCCESS
     /\ AdiI2CReadHandler sdk n s
        = Returns status (after_ep0 s n status buf bytesRead w))
  \/ (exists buf bytesRead w f,
        CyU3PUsbGetEP0Data sdk (world s) n (USBBuffer s)
          = (CY_U3P_SUCCESS, buf, bytesRead, w)
        /\ ParseUSBBuffer buf (empty_preamble sdk) = Err f
        /\ AdiI2CReadHandler sdk n s
           = Undefined f (after_ep0 s n CY_U3P_SUCCESS buf bytesRead w))
  \/ (exists buf bytesRead w p status bulk w',
        CyU3PUsbGetEP0Data sdk (world s) n (USBBuffer s)
          = (CY_U3P_SUCCESS, buf, bytesRead, w)
        /\ ParseUSBBuffer buf (empty_preamble sdk) = Ok p
        /\ status <> CY_U3P_SUCCESS
        /\ AdiI2CReadHandler sdk n s
           = Returns status
               (after_receive s n buf bytesRead p status bulk w'))
  \/ (exists buf bytesRead w p bulk w',
        CyU3PUsbGetEP0Data sdk (world s) n (USBBuffer s)
          = (CY_U3P_SUCCESS, buf, bytesRead, w)
        /\ ParseUSBBuffer buf (empty_preamble sdk) = Ok p
        /\ AdiI2CReadHandler sdk n s
           = Returns CY_U3P_SUCCESS
               (after_staging sdk s n buf bytesRead p bulk w')).
Proof.
  destruct (CyU3PUsbGetEP0Data sdk (world s) n (USBBuffer s))
    as [[[st buf] bytesRead] w] eqn:Hep0.
  destruct (decide (st = CY_U3P_SUCCESS)) as [->|Hst].
  2: { left. exists st, buf, bytesRead, w.
       by rewrite (read_ep0_failed sdk s n st buf bytesRead w Hep0 Hst). }
  destruct (ParseUSBBuffer buf (empty_preamble sdk)) as [p|f] eqn:Hp.
  2: { right. left. exists buf, bytesRead, w, f.
       by rewrite (read_parse_fault sdk s n buf bytesRead w f Hep0 Hp). }
  destruct (CyU3PI2cReceiveBytes sdk w (p_preamble p) (BulkBuffer s)
              (p_numBytes p) (I2CRetryCount (FX3State s)))
    as [[st2 bulk] w'] eqn:Hrecv.
  rewrite (read_parsed sdk s n buf bytesRead w p st2 bulk w' Hep0 Hp Hrecv).
  destruct (Z.eqb_spec st2 CY_U3P_SUCCESS) as [->|Hst2].
  - do 3 right. by exists buf, bytesRead, w, p, bulk, w'.
  - do 2 right. left. by exists buf, bytesRead, w, p, st2, bulk, w'.
Qed.

(** The four ways a run of the write handler can go. *)
Lemma write_runs s n :
  (exists status buf bytesRead w,
     CyU3PUsbGetEP0Data sdk (world s) n (USBBuffer s)
       = (status, buf, bytesRead, w)
     /\ status <> CY_U3P_SUCCESS
     /\ AdiI2CWriteHandler sdk n s
        = Returns status (after_ep0 s n status buf bytesRead w))
  \/ (exists buf bytesRead w f,
        CyU3PUsbGetEP0Data sdk (world s) n (USBBuffer s)
          = (CY_U3P_SUCCESS, buf, bytesRead, w)
        /\ ParseUSBBuffer buf (empty_preamble sdk) = Err f
        /\ AdiI2CWriteHandler sdk n s
           = Undefined f (after_ep0 s n CY_U3P_SUCCESS buf bytesRead w))
  \/ (exists buf bytesRead w p status w',
        CyU3PUsbGetEP0Data sdk (world s) n (USBBuffer s)
          = (CY_U3P_SUCCESS, buf, bytesRead, w)
        /\ ParseUSBBuffer buf (empty_preamble sdk) = Ok p
        /\ status <> CY_U3P_SUCCESS
        /\ AdiI2CWriteHandler sdk n s
           = Returns status (after_log sdk s n buf bytesRead p status w'))
  \/ (exists buf bytesRead w p w',
        CyU3PUsbGetEP0Data sdk (world s) n (USBBuffer s)
          = (CY_U3P_SUCCESS, buf, bytesRead, w)
        /\ ParseUSBBuffer buf (empty_preamble sdk) = Ok p
        /\ AdiI2CWriteHandler sdk n s
           = Returns CY_U3P_SUCCESS
               (after_transmit s n buf bytesRead p CY_U3P_SUCCESS w')).
Proof.
  destruct (CyU3PUsbGetEP0Data sdk (world s) n (USBBuffer s))
    as [[[st buf] bytesRead] w] eqn:Hep0.
  destruct (decide (st = CY_U3P_SUCCESS)) as [->|Hst].
  2: { left. exists st, buf, bytesRead, w.
       by rewrite (write_ep0_failed sdk s n st buf bytesRead w Hep0 Hst). }
  destruct (ParseUSBBuffer buf (empty_preamble sdk)) as [p|f] eqn:Hp.
  2: { right. left. exists buf, bytesRead, w, f.
       by rewrite (write_parse_fault sdk s n buf bytesRead w f Hep0 Hp). }
  destruct (CyU3PI2cTransmitBytes sdk w (p_preamble p)
              (bytes_at buf (p_index p) (p_numBytes p)) (p_numBytes p)
              (I2CRetryCount (FX3State s))) as [st2 w'] eqn:Htx.
  rewrite (write_parsed sdk s n buf bytesRead w p st2 w' Hep0 Hp Htx).
  destruct (Z.eqb_spec st2 CY_U3P_SUCCESS) as [->|Hst2].
  - do 3 right. by exists buf, bytesRead, w, p, w'.
  - do 2 right. left. by exists buf, bytesRead, w, p, st2, w'.
Qed.

(** The two ways a run of the bus configuration can go. *)
Lemma init_runs s BitRate isDMA :
  (exists status w,
     CyU3PI2cInit sdk (CyU3PI2cDeInit sdk (world s)) = (status, w)
     /\ status <> CY_U3P_SUCCESS
     /\ AdiI2CInit sdk BitRate isDMA s =
        Returns status
          (mkState (USBBuffer s) (BulkBuffer s) (ManualDMABuffer s)
             (FX3State s) (AdiLogError sdk w I2cFunctions_c 102 status)
             (trace s ++ [EvI2cDeInit; EvI2cInit status;
                          EvAdiLogError I2cFunctions_c 102 status])))
  \/ (exists w status w',
        CyU3PI2cInit sdk (CyU3PI2cDeInit sdk (world s))
          = (CY_U3P_SUCCESS, w)
        /\ CyU3PI2cSetConfig sdk w (applied_config BitRate isDMA)
           = (status, w')
        /\ AdiI2CInit sdk BitRate isDMA s =
           Returns status
             (mkState (USBBuffer s) (BulkBuffer s) (ManualDMABuffer s)
                (mkBoardState (filter_bit_rate BitRate)
                              (I2CRetryCount (FX3State s)))
                w'
                (trace s ++ [EvI2cDeInit; EvI2cInit CY_U3P_SUCCESS;
                             EvI2cSetConfig (applied_config BitRate isDMA)
                                            status]))).
Proof.
  destruct (CyU3PI2cInit sdk (CyU3PI2cDeInit sdk (world s)))
    as [st w] eqn:Hinit.
  destruct (decide (st = CY_U3P_SUCCESS)) as [->|Hst].
  - right.
    destruct (CyU3PI2cSetConfig sdk w (applied_config BitRate isDMA))
      as [st2 w'] eqn:Hcfg.
    exists w, st2, w'. split; [done|]. split; [done|].
    by apply (init_configured sdk s BitRate isDMA w st2 w').
  - left. exists st, w. split; [done|]. split; [done|].
    by apply (init_failed sdk s BitRate isDMA st w).
Qed.

End AllRuns.

(** ** When the parser returns, and what it has copied *)

(** A loop that ends without a fault has stayed inside both arrays. *)
Lemma copy_preamble_Ok_bounds fuel USB : forall i index p r,
  copy_preamble fuel USB i index p = Ok r ->
  0 <= i -> i < I2cPreamble.length p ->
  I2cPreamble.length p <= Z.of_nat (length (I2cPreamble.buffer p))
  /\ 11 + I2cPreamble.length p <= Z.of_nat (length USB).
Proof.
  induction fuel as [|fuel IH]; intros i index [buf0 len mask] r; simpl;
    [done|].
  intros Hok Hi Hlt. destruct (Z.ltb_spec i len) as [_|?]; [|lia].
  unfold rd in Hok. destruct (Z.ltb_spec (11 + i) 0); [done|].
  destruct (USB !! Z.to_nat (11 + i)) as [v|] eqn:Hv; [|done].
  apply lookup_lt_Some in Hv. cbn [res_bind] in Hok.
  unfold wr in Hok.
  destruct (Z.leb_spec 0 i); [|lia].
  destruct (Z.ltb_spec i (Z.of_nat (length buf0))); [|done].
  cbn [andb res_bind] in Hok.
  destruct (decide (i + 1 < len)) as [Hnext|Hlast].
  - apply IH in Hok; simpl in *; [|lia..].
    rewrite length_insert in Hok. done.
  - lia.
Qed.

(** The list [copied] describes. *)
Lemma copied_eq (USB old new : list byte) (len : Z) :
  copied USB old 0 len new ->
  0 <= len <= Z.of_nat (length old) ->
  11 + len <= Z.of_nat (length USB) ->
  new = take (Z.to_nat len) (drop 11 USB) ++ drop (Z.to_nat len) old.
Proof.
  intros (Hsize & Hnew & Hold) Hlen Husb. apply list_eq. intros j.
  destruct (decide (Z.of_nat j < len)) as [Hj|Hj].
  - rewrite lookup_app_l by (rewrite length_take, length_drop; lia).
    rewrite lookup_take_lt, lookup_drop by lia.
    rewrite <- (Nat2Z.id j) at 1. rewrite Hnew by lia.
    f_equal. lia.
  - rewrite Hold by lia.
    rewrite lookup_app_r by (rewrite length_take, length_drop; lia).
    rewrite lookup_drop. f_equal.
    rewrite length_take, length_drop. lia.
Qed.

(** The parser returns exactly when the length byte is between 1 and the
    capacity and the address bytes lie inside the buffer it reads. *)
Lemma ParseUSBBuffer_Ok_bounds (buf : list byte) pre p :
  ParseUSBBuffer buf pre = Ok p ->
  1 <= length_of buf <= Z.of_nat (length (I2cPreamble.buffer pre))
  /\ 11 + length_of buf <= Z.of_nat (length buf).
Proof.
  intros Hp. pose proof (ParseUSBBuffer_Ok buf pre p Hp) as (Hl & _).
  destruct (decide (length buf < 11)%nat) as [Hs|Hlong].
  { rewrite ParseUSBBuffer_short in Hp by done. done. }
  rewrite ParseUSBBuffer_header in Hp by lia.
  destruct (copy_preamble _ _ _ _ _) as [r|] eqn:Hloop; [|done].
  pose proof (copy_preamble_Ok_bounds _ _ _ _ _ _ Hloop) as Hb.
  cbn [I2cPreamble.length I2cPreamble.buffer] in Hb. lia.
Qed.

Lemma ParseUSBBuffer_Ok_buffer (buf : list byte) pre p :
  ParseUSBBuffer buf pre = Ok p ->
  I2cPreamble.buffer (p_preamble p)
  = take (Z.to_nat (length_of buf)) (drop 11 buf)
    ++ drop (Z.to_nat (length_of buf)) (I2cPreamble.buffer pre).
Proof.
  intros Hp.
  pose proof (ParseUSBBuffer_Ok_bounds buf pre p Hp) as [Hrange Hlen].
  destruct (ParseUSBBuffer_returns buf pre Hlen Hrange)
    as (addr & Heq & Hcopied).
  rewrite Hp in Heq. injection Heq as ->. simpl.
  apply copied_eq; done || lia.
Qed.

(** ** What the parser reads *)

Lemma copy_preamble_prefix fuel b1 b2 : forall i index p,
  0 <= i ->
  (forall j : nat, Z.of_nat j < 11 + I2cPreamble.length p ->
                   b1 !! j = b2 !! j) ->
  copy_preamble fuel b1 i index p = copy_preamble fuel b2 i index p.
Proof.
  induction fuel as [|fuel IH]; intros i index p Hi Hsame;
    cbn [copy_preamble]; [done|].
  destruct (Z.ltb_spec i (I2cPreamble.length p)) as [Hlt|_]; [|done].
  assert (rd USBBuffer_arr b1 (11 + i) = rd USBBuffer_arr b2 (11 + i)) as ->.
  { unfold rd. destruct (_ <? 0); [done|]. rewrite Hsame by lia. done. }
  destruct (rd _ b2 _); [|done]. cbn [res_bind].
  destruct (wr _ _ _ _); [|done]. cbn [res_bind].
  apply IH; [lia|done].
Qed.

(** ** The wire layout, read back *)

Lemma u8_byte_of z : u8 (Wire.byte_of z) = z mod 256.
Proof.
  unfold u8, Wire.byte_of.
  pose proof (Z.mod_pos_bound z 256 ltac:(lia)) as Hm.
  destruct (Byte.of_N (Z.to_N (z mod 256))) as [b|] eqn:Hb.
  - apply Byte.to_of_N in Hb. simpl. rewrite Hb. lia.
  - apply Byte.of_N_None_iff in Hb. lia.
Qed.

Lemma le32_bytes z :
  0 <= z < 2 ^ 32 ->
  le32 (u8 (Wire.byte_of (Z.shiftr z 0))) (u8 (Wire.byte_of (Z.shiftr z 8)))
       (u8 (Wire.byte_of (Z.shiftr z 16)))
       (u8 (Wire.byte_of (Z.shiftr z 24))) = z.
Proof.
  intros Hz. change (2 ^ 32) with 4294967296 in Hz.
  rewrite le32_value by apply u8_range.
  rewrite !u8_byte_of, !Z.shiftr_div_pow2 by lia.
  change (2 ^ 0) with 1. change (2 ^ 8) with 256.
  change (2 ^ 16) with 65536. change (2 ^ 24) with 16777216.
  rewrite Z.div_1_r. Z.div_mod_to_equations. lia.
Qed.

Lemma le16_bytes z :
  0 <= z < 2 ^ 16 ->
  le16 (u8 (Wire.byte_of (Z.shiftr z 0))) (u8 (Wire.byte_of (Z.shiftr z 8)))
  = z.
Proof.
  intros Hz. change (2 ^ 16) with 65536 in Hz.
  rewrite le16_value by apply u8_range.
  rewrite !u8_byte_of, !Z.shiftr_div_pow2 by lia.
  change (2 ^ 0) with 1. change (2 ^ 8) with 256.
  rewrite Z.div_1_r. Z.div_mod_to_equations. lia.
Qed.

(** ** The parser *)

(** X1.  Whenever the parser returns, numBytes and timeout are the 32-bit
    little-endian numbers in bytes 0..3 and 4..7 of the buffer, the preamble
    length is byte 8 and the control mask the 16-bit little-endian number
    in bytes 9..10; all of them are within the range of their width. *)
Theorem X1_parsed_fields_are_little_endian (buf : list byte) pre p :
  ParseUSBBuffer buf pre = Ok p ->
  p_numBytes p
    = at_ buf 0 + 256 * at_ buf 1 + 65536 * at_ buf 2 + 16777216 * at_ buf 3
  /\ p_timeout p
     = at_ buf 4 + 256 * at_ buf 5 + 65536 * at_ buf 6
       + 16777216 * at_ buf 7
  /\ I2cPreamble.length (p_preamble p) = at_ buf 8
  /\ I2cPreamble.ctrlMask (p_preamble p) = at_ buf 9 + 256 * at_ buf 10
  /\ 0 <= p_numBytes p < 2 ^ 32
  /\ 0 <= p_timeout p < 2 ^ 32
  /\ 0 <= I2cPreamble.ctrlMask (p_preamble p) < 2 ^ 16.
Proof.
  intros (_ & _ & -> & -> & -> & ->)%ParseUSBBuffer_Ok.
  unfold numBytes_of, timeout_of, length_of, ctrlMask_of.
  rewrite !le32_value, le16_value by apply u8_range.
  change (2 ^ 32) with 4294967296. change (2 ^ 16) with 65536.
  pose proof (fun k => u8_range (default Byte.x00 (buf !! k))) as Hb.
  pose proof (Hb 0%nat). pose proof (Hb 1%nat). pose proof (Hb 2%nat).
  pose proof (Hb 3%nat). pose proof (Hb 4%nat). pose proof (Hb 5%nat).
  pose proof (Hb 6%nat). pose proof (Hb 7%nat). pose proof (Hb 9%nat).
  pose proof (Hb 10%nat). unfold at_. repeat split; lia.
Qed.

(** On the bench: the fields of [payload_counting]. *)
Lemma X1_parsed_fields_are_little_endian_witness :
  p_numBytes
    (mkParsed 12 134678021 67305985
       (I2cPreamble.mk [x50; x00; x00; x00; x00; x00; x00; x00] 1 2826))
  = at_ (USBBuffer (bench_state payload_counting (all_ok []))) 0
    + 256 * at_ (USBBuffer (bench_state payload_counting (all_ok []))) 1
    + 65536 * at_ (USBBuffer (bench_state payload_counting (all_ok []))) 2
    + 16777216
      * at_ (USBBuffer (bench_state payload_counting (all_ok []))) 3.
Proof.
  eapply (X1_parsed_fields_are_little_endian
            (USBBuffer (bench_state payload_counting (all_ok [])))
            (empty_preamble bench_sdk)).
  vm_compute. reflexivity.
Defined.

Lemma encode_bytes (h : Wire.RequestHeader) :
  Wire.encode h
  = [Wire.byte_of (Z.shiftr (Wire.transferLength h) 0);
     Wire.byte_of (Z.shiftr (Wire.transferLength h) 8);
     Wire.byte_of (Z.shiftr (Wire.transferLength h) 16);
     Wire.byte_of (Z.shiftr (Wire.transferLength h) 24);
     Wire.byte_of (Z.shiftr (Wire.timeoutTicks h) 0);
     Wire.byte_of (Z.shiftr (Wire.timeoutTicks h) 8);
     Wire.byte_of (Z.shiftr (Wire.timeoutTicks h) 16);
     Wire.byte_of (Z.shiftr (Wire.timeoutTicks h) 24);
     Wire.byte_of (Wire.preamble_length h);
     Wire.byte_of (Z.shiftr (Wire.controlMask h) 0);
     Wire.byte_of (Z.shiftr (Wire.controlMask h) 8)]
    ++ Wire.addressBytes h.
Proof. reflexivity. Qed.

(** X2.  The parser inverts the wire layout: every header whose fields fit
    their width and whose address bytes are as many as its length says,
    between 1 and the capacity of the preamble buffer, written
    little-endian at the front of the buffer (whatever follows), is parsed
    back field by field, and the offset returned is 11 + length. *)
Theorem X2_wire_round_trip (h : Wire.RequestHeader) (rest : list byte) pre :
  wire_header_ok (Z.of_nat (length (I2cPreamble.buffer pre))) h ->
  exists p,
    ParseUSBBuffer (Wire.encode h ++ rest) pre = Ok p
    /\ Wire.header_of p = h
    /\ p_index p = 11 + Wire.preamble_length h.
Proof.
  intros (Htl & Hto & Hmask & Hlen & Hcap & Hbyte).
  set (buf := Wire.encode h ++ rest).
  assert (length_of buf = Wire.preamble_length h) as Hl.
  { unfold buf. rewrite encode_bytes. unfold length_of, at_. simpl.
    rewrite u8_byte_of. apply Z.mod_small. lia. }
  assert (numBytes_of buf = Wire.transferLength h) as Hn.
  { unfold buf. rewrite encode_bytes. unfold numBytes_of, at_. simpl.
    by apply le32_bytes. }
  assert (timeout_of buf = Wire.timeoutTicks h) as Ht.
  { unfold buf. rewrite encode_bytes. unfold timeout_of, at_. simpl.
    by apply le32_bytes. }
  assert (ctrlMask_of buf = Wire.controlMask h) as Hm.
  { unfold buf. rewrite encode_bytes. unfold ctrlMask_of, at_. simpl.
    by apply le16_bytes. }
  assert (drop 11 buf = Wire.addressBytes h ++ rest) as Hdrop.
  { unfold buf. rewrite encode_bytes. reflexivity. }
  assert (11 + length_of buf <= Z.of_nat (length buf)) as Hfit.
  { rewrite Hl, Hlen. unfold buf. rewrite encode_bytes, !length_app.
    simpl. lia. }
  destruct (ParseUSBBuffer_returns buf pre Hfit) as (addr & Hp & Hcopied);
    [lia|].
  eexists. split; [exact Hp|]. split; [|simpl; by rewrite Hl].
  apply copied_eq in Hcopied; [|lia..].
  unfold Wire.header_of. simpl. rewrite Hcopied, Hdrop, Hl, Hn, Ht, Hm.
  destruct h as [tl to len mask addr0]. simpl in *. f_equal.
  rewrite Hlen, Nat2Z.id.
  rewrite take_app_length. rewrite take_app_length. done.
Qed.

(** On the bench: a header with three address bytes and the largest
    timeout. *)
Lemma X2_wire_round_trip_witness :
  exists p,
    ParseUSBBuffer
      (Wire.encode
         (Wire.mkRequestHeader 4096 0xFFFFFFFF 3 0x8005 [xa0; x01; x02])
       ++ zeros 4082)
      (empty_preamble bench_sdk) = Ok p
    /\ Wire.header_of p
       = Wire.mkRequestHeader 4096 0xFFFFFFFF 3 0x8005 [xa0; x01; x02]
    /\ p_index p = 11 + 3.
Proof.
  apply (X2_wire_round_trip
           (Wire.mkRequestHeader 4096 0xFFFFFFFF 3 0x8005 [xa0; x01; x02])
           (zeros 4082) (empty_preamble bench_sdk)).
  unfold wire_header_ok. simpl. lia.
Defined.

(** X3.  Whenever the parser returns, the first [length] elements of the
    preamble's buffer are the bytes at offsets 11 .. 10 + length of the
    buffer read, in order, and the elements behind them are as the caller
    passed them in; the buffer keeps its size. *)
Theorem X3_address_bytes_are_copied_in_order (buf : list byte) pre p :
  ParseUSBBuffer buf pre = Ok p ->
  I2cPreamble.buffer (p_preamble p)
  = take (Z.to_nat (length_of buf)) (drop 11 buf)
    ++ drop (Z.to_nat (length_of buf)) (I2cPreamble.buffer pre)
  /\ length (I2cPreamble.buffer (p_preamble p))
     = length (I2cPreamble.buffer pre)
  /\ Z.of_nat (length (take (Z.to_nat (length_of buf)) (drop 11 buf)))
     = length_of buf.
Proof.
  intros Hp.
  pose proof (ParseUSBBuffer_Ok_bounds buf pre p Hp) as [Hrange Hlen].
  pose proof (ParseUSBBuffer_Ok_buffer buf pre p Hp) as Hbuf.
  split; [done|]. rewrite Hbuf.
  rewrite length_app, !length_take, !length_drop. lia.
Qed.

(** On the bench: nine address bytes copied into a preamble of sixteen
    elements that held 0xff throughout. *)
Lemma X3_address_bytes_are_copied_in_order_witness :
  I2cPreamble.buffer
    (p_preamble
       (mkParsed 20 1000 16
          (I2cPreamble.mk
             [x50; x00; x00; x00; x00; x00; x00; x00; x00;
              xff; xff; xff; xff; xff; xff; xff] 9 1)))
  = take (Z.to_nat (length_of (payload_length_9 ++ zeros 100)))
         (drop 11 (payload_length_9 ++ zeros 100))
    ++ drop (Z.to_nat (length_of (payload_length_9 ++ zeros 100)))
            (replicate 16 xff).
Proof.
  eapply (X3_address_bytes_are_copied_in_order
            (payload_length_9 ++ zeros 100)
            (I2cPreamble.mk (replicate 16 xff) 0 0)).
  vm_compute. reflexivity.
Defined.

(** ** The bus transactions the handlers ask for *)

(** X4.  For a request whose preamble length is between 1 and the capacity
    of the preamble's address buffer, the read handler issues one bus call,
    the bus read the request describes: the preamble holds the [length]
    address bytes found behind the header, followed by zeros up to the
    capacity, with the length and mask of the header; the destination is
    the start of [BulkBuffer], the byte count is the transfer length of the
    header and the retry count the one configured in the board state.  The
    driver is called in the world the control-endpoint read left, on
    [BulkBuffer] as it was. *)
Theorem X4_bus_read_is_the_one_requested
    {W} (sdk : Sdk W) (s : state W) n buf bytesRead w :
  CyU3PUsbGetEP0Data sdk (world s) n (USBBuffer s)
    = (CY_U3P_SUCCESS, buf, bytesRead, w) ->
  Z.of_nat (length buf) = USBBuffer_size ->
  1 <= length_of buf <= Z.of_nat (preamble_buffer_len sdk) ->
  exists status bulk w' rest,
    CyU3PI2cReceiveBytes sdk w
      (I2cPreamble.mk
         (take (Z.to_nat (length_of buf)) (drop 11 buf)
          ++ replicate (preamble_buffer_len sdk - Z.to_nat (length_of buf))
                       x00)
         (length_of buf) (ctrlMask_of buf))
      (BulkBuffer s) (numBytes_of buf) (I2CRetryCount (FX3State s))
    = (status, bulk, w')
    /\ new_events s (AdiI2CReadHandler sdk n s)
       = EvUsbGetEP0Data n CY_U3P_SUCCESS bytesRead
         :: EvI2cReceiveBytes
              (I2cPreamble.mk
                 (take (Z.to_nat (length_of buf)) (drop 11 buf)
                  ++ replicate
                       (preamble_buffer_len sdk - Z.to_nat (length_of buf))
                       x00)
                 (length_of buf) (ctrlMask_of buf))
              (Ptr BulkBuffer_arr 0) (numBytes_of buf)
              (I2CRetryCount (FX3State s)) status
         :: rest
    /\ forallb (fun e => negb (is_bus_call e)) rest = true
    /\ returned (AdiI2CReadHandler sdk n s) = Some status.
Proof.
  intros Hep0 Hsize Hlen.
  destruct (ParseUSBBuffer_returns buf (empty_preamble sdk))
    as (addr & Hp & _).
  { pose proof (length_of_range buf). unfold USBBuffer_size in Hsize. lia. }
  { simpl. rewrite length_replicate. lia. }
  pose proof (ParseUSBBuffer_Ok_buffer _ _ _ Hp) as Hbuf.
  simpl in Hbuf. rewrite drop_replicate in Hbuf. subst addr.
  set (p := mkParsed _ _ _ _) in Hp.
  destruct (CyU3PI2cReceiveBytes sdk w (p_preamble p) (BulkBuffer s)
              (p_numBytes p) (I2CRetryCount (FX3State s)))
    as [[st bulk] w'] eqn:Hrecv.
  rewrite (read_parsed sdk s n buf bytesRead w p st bulk w' Hep0 Hp Hrecv).
  exists st, bulk, w'.
  destruct (Z.eqb_spec st CY_U3P_SUCCESS) as [->|Hst];
    erewrite new_events_app by reflexivity; eexists; done.
Qed.

(** On the bench: the bus read of a request for ten bytes. *)
Lemma X4_bus_read_is_the_one_requested_witness :
  exists status bulk w' rest,
    CyU3PI2cReceiveBytes bench_sdk (all_ok [])
      (I2cPreamble.mk [x50; x00; x00; x00; x00; x00; x00; x00] 2 1)
      (zeros BulkBuffer_size) 10 1
    = (status, bulk, w')
    /\ new_events (bench_state [] (all_ok payload_read_10))
         (AdiI2CReadHandler bench_sdk 13
            (bench_state [] (all_ok payload_read_10)))
       = EvUsbGetEP0Data 13 CY_U3P_SUCCESS 13
         :: EvI2cReceiveBytes
              (I2cPreamble.mk [x50; x00; x00; x00; x00; x00; x00; x00] 2 1)
              (Ptr BulkBuffer_arr 0) 10 1 status
         :: rest
    /\ forallb (fun e => negb (is_bus_call e)) rest = true
    /\ returned (AdiI2CReadHandler bench_sdk 13
                   (bench_state [] (all_ok payload_read_10)))
       = Some status.
Proof.
  apply (X4_bus_read_is_the_one_requested bench_sdk
           (bench_state [] (all_ok payload_read_10)) 13
           (USBBuffer (bench_state payload_read_10 (all_ok [])))
           13 (all_ok [])).
  - reflexivity.
  - vm_compute. reflexivity.
  - vm_compute. split; discriminate.
Defined.

(** X5.  For a request whose preamble length is between 1 and the capacity
    of the preamble's address buffer, the write handler issues one bus
    call, the bus write the request describes: the preamble is built as for
    a read, the source is [USBBuffer + 11 + length], inside the array, the
    byte count is the transfer length of the header, and the data are the
    bytes of the control payload from that offset on, byte for byte.  When
    the transfer length reaches no further than the end of the buffer, the
    data are exactly that many bytes. *)
Theorem X5_bus_write_is_the_one_requested
    {W} (sdk : Sdk W) (s : state W) n buf bytesRead w :
  CyU3PUsbGetEP0Data sdk (world s) n (USBBuffer s)
    = (CY_U3P_SUCCESS, buf, bytesRead, w) ->
  Z.of_nat (length buf) = USBBuffer_size ->
  1 <= length_of buf <= Z.of_nat (preamble_buffer_len sdk) ->
  11 + length_of buf < Z.of_nat (length buf)
  /\ (exists data status w' rest,
        CyU3PI2cTransmitBytes sdk w
          (I2cPreamble.mk
             (take (Z.to_nat (length_of buf)) (drop 11 buf)
              ++ replicate
                   (preamble_buffer_len sdk - Z.to_nat (length_of buf))
                   x00)
             (length_of buf) (ctrlMask_of buf))
          data (numBytes_of buf) (I2CRetryCount (FX3State s))
        = (status, w')
        /\ new_events s (AdiI2CWriteHandler sdk n s)
           = EvUsbGetEP0Data n CY_U3P_SUCCESS bytesRead
             :: EvI2cTransmitBytes
                  (I2cPreamble.mk
                     (take (Z.to_nat (length_of buf)) (drop 11 buf)
                      ++ replicate
                           (preamble_buffer_len sdk
                            - Z.to_nat (length_of buf))
                           x00)
                     (length_of buf) (ctrlMask_of buf))
                  (Ptr USBBuffer_arr (11 + length_of buf))
                  data (numBytes_of buf) (I2CRetryCount (FX3State s)) status
             :: rest
        /\ forallb (fun e => negb (is_bus_call e)) rest = true
        /\ returned (AdiI2CWriteHandler sdk n s) = Some status
        /\ data
           = take (Z.to_nat (numBytes_of buf))
               (drop (Z.to_nat (11 + length_of buf)) buf)
        /\ (forall j : nat,
              Z.of_nat j < numBytes_of buf ->
              data !! j = buf !! (Z.to_nat (11 + length_of buf) + j)%nat)
        /\ (11 + length_of buf + numBytes_of buf <= Z.of_nat (length buf) ->
            Z.of_nat (length data) = numBytes_of buf)).
Proof.
  intros Hep0 Hsize Hlen.
  pose proof (length_of_range buf) as Hbyte.
  pose proof (numBytes_of_range buf) as Hnbr.
  unfold USBBuffer_size in Hsize.
  split; [lia|].
  destruct (ParseUSBBuffer_returns buf (empty_preamble sdk))
    as (addr & Hp & _); [lia|simpl; rewrite length_replicate; lia|].
  pose proof (ParseUSBBuffer_Ok_buffer _ _ _ Hp) as Hbuf.
  simpl in Hbuf. rewrite drop_replicate in Hbuf. subst addr.
  set (p := mkParsed _ _ _ _) in Hp.
  destruct (CyU3PI2cTransmitBytes sdk w (p_preamble p)
              (bytes_at buf (p_index p) (p_numBytes p)) (p_numBytes p)
              (I2CRetryCount (FX3State s))) as [st w'] eqn:Htx.
  rewrite (write_parsed sdk s n buf bytesRead w p st w' Hep0 Hp Htx).
  exists (bytes_at buf (p_index p) (p_numBytes p)), st, w'.
  assert (forall rest' (o : outcome W Z),
            new_events s o
            = EvUsbGetEP0Data n CY_U3P_SUCCESS bytesRead
              :: transmit_event s buf p st :: rest' ->
            forallb (fun e => negb (is_bus_call e)) rest' = true ->
            returned o = Some st ->
            exists rest,
              CyU3PI2cTransmitBytes sdk w (p_preamble p)
                (bytes_at buf (p_index p) (p_numBytes p)) (p_numBytes p)
                (I2CRetryCount (FX3State s)) = (st, w')
              /\ new_events s o
                 = EvUsbGetEP0Data n CY_U3P_SUCCESS bytesRead
                   :: transmit_event s buf p st :: rest
              /\ forallb (fun e => negb (is_bus_call e)) rest = true
              /\ returned o = Some st
              /\ bytes_at buf (p_index p) (p_numBytes p)
                 = take (Z.to_nat (numBytes_of buf))
                     (drop (Z.to_nat (11 + length_of buf)) buf)
              /\ (forall j : nat,
                    Z.of_nat j < numBytes_of buf ->
                    bytes_at buf (p_index p) (p_numBytes p) !! j
                    = buf !! (Z.to_nat (11 + length_of buf) + j)%nat)
              /\ (11 + length_of buf + numBytes_of buf
                  <= Z.of_nat (length buf) ->
                  Z.of_nat (length (bytes_at buf (p_index p) (p_numBytes p)))
                  = numBytes_of buf)) as Hall.
  { intros rest' o Hev Hrest Hret. exists rest'.
    repeat split; try done.
    - intros j Hj. unfold bytes_at, p. simpl.
      rewrite lookup_take_lt by lia. by rewrite lookup_drop.
    - intros Hend. unfold bytes_at, p. simpl.
      rewrite length_take, length_drop. lia. }
  destruct (Z.eqb_spec st CY_U3P_SUCCESS) as [->|Hst].
  - apply (Hall []); [by apply new_events_app|done|done].
  - apply (Hall [EvAdiLogError I2cFunctions_c 78 st]);
      [by apply new_events_app|done|done].
Qed.

(** On the bench: the two data bytes of [payload_write_2]. *)
Lemma X5_bus_write_is_the_one_requested_witness :
  11 + length_of (USBBuffer (bench_state payload_write_2 (all_ok [])))
  < Z.of_nat (length (USBBuffer (bench_state payload_write_2 (all_ok []))))
  /\ new_events (bench_state [] (all_ok payload_write_2))
       (AdiI2CWriteHandler bench_sdk 14
          (bench_state [] (all_ok payload_write_2)))
     = [EvUsbGetEP0Data 14 CY_U3P_SUCCESS 14;
        EvI2cTransmitBytes
          (I2cPreamble.mk [x50; x00; x00; x00; x00; x00; x00; x00] 1 1)
          (Ptr USBBuffer_arr 12) [xaa; x55] 2 1 CY_U3P_SUCCESS].
Proof.
  split.
  - eapply (X5_bus_write_is_the_one_requested bench_sdk
              (bench_state [] (all_ok payload_write_2)) 14
              (USBBuffer (bench_state payload_write_2 (all_ok [])))
              14 (all_ok [])).
    + reflexivity.
    + vm_compute. reflexivity.
    + vm_compute. split; discriminate.
  - vm_compute. reflexivity.
Defined.

(** ** What the handlers leave alone *)

(** X6.  A handler changes none of the globals but the ones it is there
    for.  Both leave the board state as it was and leave in [USBBuffer]
    exactly what the control-endpoint read put there: the control payload
    is never modified, whatever the bus does.  The write handler leaves
    [BulkBuffer] and the DMA descriptor as they were. *)
Theorem X6_handlers_leave_the_other_globals
    {W} (sdk : Sdk W) (s : state W) n status buf bytesRead w :
  CyU3PUsbGetEP0Data sdk (world s) n (USBBuffer s)
    = (status, buf, bytesRead, w) ->
  USBBuffer (final_state (AdiI2CReadHandler sdk n s)) = buf
  /\ FX3State (final_state (AdiI2CReadHandler sdk n s)) = FX3State s
  /\ USBBuffer (final_state (AdiI2CWriteHandler sdk n s)) = buf
  /\ FX3State (final_state (AdiI2CWriteHandler sdk n s)) = FX3State s
  /\ BulkBuffer (final_state (AdiI2CWriteHandler sdk n s)) = BulkBuffer s
  /\ ManualDMABuffer (final_state (AdiI2CWriteHandler sdk n s))
     = ManualDMABuffer s.
Proof.
  intros Hep0.
  destruct (read_runs sdk s n)
    as [(st & b & br & w0 & Hr & _ & ->)
       |[(b & br & w0 & f & Hr & _ & ->)
        |[(b & br & w0 & p & st & bulk & w' & Hr & _ & _ & ->)
         |(b & br & w0 & p & bulk & w' & Hr & _ & ->)]]];
    rewrite Hep0 in Hr; simplify_eq;
    (destruct (write_runs sdk s n)
       as [(st' & b' & br' & w1 & Hw & _ & ->)
          |[(b' & br' & w1 & f' & Hw & _ & ->)
           |[(b' & br' & w1 & p' & st' & w1' & Hw & _ & _ & ->)
            |(b' & br' & w1 & p' & w1' & Hw & _ & ->)]]];
     rewrite Hep0 in Hw; simplify_eq); done.
Qed.

(** On the bench: a failed bus write leaves the payload where it was. *)
Lemma X6_handlers_leave_the_other_globals_witness :
  USBBuffer
    (final_state
       (AdiI2CWriteHandler bench_sdk 14 (bench_state [] bus_write_fails)))
  = USBBuffer (bench_state payload_write_2 (all_ok [])).
Proof.
  eapply (X6_handlers_leave_the_other_globals bench_sdk
            (bench_state [] bus_write_fails) 14 0 _ 14
            (mkBench [] 0 0 69 0 0)).
  reflexivity.
Defined.


(** X8.  Only a failed bus write is logged by the handlers.  The read
    handler never calls the error log, also when the bus read fails.  An
    entry the write handler logs carries this file's tag, line 78 and a
    failure status, which is the status of the bus write just made and the
    one the handler returns; a write handler that returns success has
    logged nothing. *)
Theorem X8_only_a_failed_bus_write_is_logged
    {W} (sdk : Sdk W) (s : state W) n :
  existsb is_log_call (new_events s (AdiI2CReadHandler sdk n s)) = false
  /\ (forall file line code,
        EvAdiLogError file line code
          ∈ new_events s (AdiI2CWriteHandler sdk n s) ->
        file = I2cFunctions_c /\ line = 78 /\ code <> CY_U3P_SUCCESS
        /\ returned (AdiI2CWriteHandler sdk n s) = Some code
        /\ exists preamble src data numBytes retry,
             EvI2cTransmitBytes preamble src data numBytes retry code
               ∈ new_events s (AdiI2CWriteHandler sdk n s))
  /\ (returned (AdiI2CWriteHandler sdk n s) = Some CY_U3P_SUCCESS ->
      existsb is_log_call (new_events s (AdiI2CWriteHandler sdk n s))
      = false).
Proof.
  split; [|split].
  - destruct (read_runs sdk s n)
      as [(st & b & br & w0 & _ & _ & ->)
         |[(b & br & w0 & f & _ & _ & ->)
          |[(b & br & w0 & p & st & bulk & w' & _ & _ & _ & ->)
           |(b & br & w0 & p & bulk & w' & _ & _ & ->)]]];
      erewrite new_events_app by reflexivity; done.
  - intros file line code.
    destruct (write_runs sdk s n)
      as [(st' & b' & br' & w1 & _ & _ & ->)
         |[(b' & br' & w1 & f' & _ & _ & ->)
          |[(b' & br' & w1 & p' & st' & w1' & _ & _ & Hst & ->)
           |(b' & br' & w1 & p' & w1' & _ & _ & ->)]]];
      erewrite new_events_app by reflexivity;
      unfold transmit_event; intros Hin; elem_cases Hin.
    repeat split; try done.
    eexists _, _, _, _, _. apply elem_of_cons. right.
    apply elem_of_cons. by left.
  - destruct (write_runs sdk s n)
      as [(st' & b' & br' & w1 & _ & Hst & ->)
         |[(b' & br' & w1 & f' & _ & _ & ->)
          |[(b' & br' & w1 & p' & st' & w1' & _ & _ & Hst & ->)
           |(b' & br' & w1 & p' & w1' & _ & _ & ->)]]];
      erewrite new_events_app by reflexivity; simpl; intros Hret;
      simplify_eq; done.
Qed.

(** On the bench: the entry logged for a bus write that fails with 69. *)
Lemma X8_only_a_failed_bus_write_is_logged_witness :
  returned (AdiI2CWriteHandler bench_sdk 14 (bench_state [] bus_write_fails))
  = Some 69.
Proof.
  eapply (proj1 (proj2 (X8_only_a_failed_bus_write_is_logged bench_sdk
                          (bench_state [] bus_write_fails) 14))
            I2cFunctions_c 78 69).
  vm_compute. do 2 (apply elem_of_cons; right). apply elem_of_cons. by left.
Defined.

(** ** When the parser returns, and what it depends on *)

(** X9.  The parser returns exactly when the length byte is between 1 and
    the capacity of the preamble's buffer and the address bytes lie inside
    the buffer read.  The offset it returns is then 11 + length, between 12
    and 266 and no further than the end of that buffer, so that
    [USBBuffer + index] points into the array or just behind it. *)
Theorem X9_parser_returns_iff (buf : list byte) (pre : CyU3PI2cPreamble_t) :
  ((exists p, ParseUSBBuffer buf pre = Ok p) <->
   1 <= length_of buf <= Z.of_nat (length (I2cPreamble.buffer pre))
   /\ 11 + length_of buf <= Z.of_nat (length buf))
  /\ (forall p,
        ParseUSBBuffer buf pre = Ok p ->
        p_index p = 11 + length_of buf
        /\ 12 <= p_index p <= 266
        /\ p_index p <= Z.of_nat (length buf)).
Proof.
  split.
  - split.
    + intros [p Hp]. by apply (ParseUSBBuffer_Ok_bounds buf pre p).
    + intros [Hrange Hfit].
      destruct (ParseUSBBuffer_returns buf pre Hfit Hrange) as (addr & Hp & _).
      eauto.
  - intros p Hp. pose proof (length_of_range buf) as Hbyte.
    pose proof (ParseUSBBuffer_Ok_bounds buf pre p Hp) as [Hrange Hfit].
    apply ParseUSBBuffer_Ok in Hp as (_ & -> & _). lia.
Qed.

(** On a buffer of twelve bytes: the one address byte is the last byte,
    and the offset returned is its end. *)
Lemma X9_parser_returns_iff_witness :
  p_index
    (mkParsed 12 134678021 67305985
       (I2cPreamble.mk [x50; x00; x00; x00; x00; x00; x00; x00] 1 2826))
  <= Z.of_nat (length payload_counting).
Proof.
  eapply (proj2 (X9_parser_returns_iff payload_counting
                   (empty_preamble bench_sdk))).
  vm_compute. reflexivity.
Defined.

(** X10.  The parse is a function of the first 11 + length bytes of the
    buffer: it reads nothing behind the address bytes.  Two buffers that
    agree on those bytes, also in how far they reach, are parsed alike,
    fault or result. *)
Theorem X10_parser_reads_header_and_address_bytes_only
    (b1 b2 : list byte) (pre : CyU3PI2cPreamble_t) :
  (forall j : nat, Z.of_nat j < 11 + length_of b1 -> b1 !! j = b2 !! j) ->
  ParseUSBBuffer b1 pre = ParseUSBBuffer b2 pre.
Proof.
  intros Hsame. pose proof (length_of_range b1) as Hbyte.
  destruct (decide (length b1 < 11)%nat) as [Hshort|Hlong].
  - assert (length b2 = length b1) as Hlen.
    { pose proof (Hsame (length b1) ltac:(lia)) as Hend.
      rewrite (lookup_ge_None_2 b1) in Hend by lia.
      symmetry in Hend. apply lookup_ge_None_1 in Hend.
      destruct (decide (length b1 = 0)%nat) as [Hz|Hnz].
      - lia.
      - pose proof (Hsame (length b1 - 1)%nat ltac:(lia)) as Hlast.
        destruct (lookup_lt_is_Some_2 b1 (length b1 - 1)%nat) as [x Hx];
          [lia|].
        rewrite Hx in Hlast. symmetry in Hlast.
        apply lookup_lt_Some in Hlast. lia. }
    rewrite !ParseUSBBuffer_short by lia. by rewrite Hlen.
  - assert (11 <= length b2)%nat as Hlong2.
    { pose proof (Hsame 10%nat ltac:(lia)) as H10.
      destruct (lookup_lt_is_Some_2 b1 10%nat) as [x Hx]; [lia|].
      rewrite Hx in H10. symmetry in H10.
      apply lookup_lt_Some in H10. lia. }
    assert (forall k : nat, (k < 11)%nat -> at_ b1 k = at_ b2 k) as Hat.
    { intros k Hk. unfold at_. rewrite Hsame by lia. done. }
    rewrite !ParseUSBBuffer_header by lia.
    unfold numBytes_of, timeout_of, length_of, ctrlMask_of.
    rewrite <- !Hat by lia.
    rewrite (copy_preamble_prefix 256 b1 b2) by (done || lia).
    done.
Qed.

(** On the bench: a write request with its two data bytes, and the same
    request with other data behind the one address byte. *)
Lemma X10_parser_reads_header_and_address_bytes_only_witness :
  ParseUSBBuffer (payload_write_2 ++ zeros 4082) (empty_preamble bench_sdk)
  = ParseUSBBuffer
      (take 12 payload_write_2 ++ replicate 4084 xff)
      (empty_preamble bench_sdk).
Proof.
  apply X10_parser_reads_header_and_address_bytes_only.
  intros j Hj. change (length_of (payload_write_2 ++ zeros 4082)) with 1 in Hj.
  do 12 (destruct j as [|j]; [reflexivity|]). lia.
Defined.

(** ** The bus configuration *)

(** X11.  The bus configuration always de-initialises the bus first and
    then initialises it once.  It returns success exactly when both the
    initialisation and the call that applies the configuration succeed, and
    otherwise the status of the call that failed.  The configuration it
    applies has the bus timeout 0xFFFFFFFF, the DMA timeout 0xFFFF, the
    transfer mode asked for and a bit rate between 100 kHz and 1 MHz.  It
    leaves the buffers, the DMA descriptor and the retry count as they
    were. *)
Theorem X11_bus_configuration_runs
    {W} (sdk : Sdk W) (s : state W) BitRate isDMA :
  (exists status last,
     new_events s (AdiI2CInit sdk BitRate isDMA s)
     = [EvI2cDeInit; EvI2cInit status; last])
  /\ (returned (AdiI2CInit sdk BitRate isDMA s) = Some CY_U3P_SUCCESS <->
      EvI2cInit CY_U3P_SUCCESS ∈ new_events s (AdiI2CInit sdk BitRate isDMA s)
      /\ exists cfg,
           EvI2cSetConfig cfg CY_U3P_SUCCESS
             ∈ new_events s (AdiI2CInit sdk BitRate isDMA s))
  /\ (forall cfg status,
        EvI2cSetConfig cfg status
          ∈ new_events s (AdiI2CInit sdk BitRate isDMA s) ->
        busTimeout cfg = 0xFFFFFFFF /\ dmaTimeout cfg = 0xFFFF
        /\ isDma cfg = isDMA /\ 100000 <= bitRate cfg <= 1000000
        /\ returned (AdiI2CInit sdk BitRate isDMA s) = Some status)
  /\ USBBuffer (final_state (AdiI2CInit sdk BitRate isDMA s)) = USBBuffer s
  /\ BulkBuffer (final_state (AdiI2CInit sdk BitRate isDMA s)) = BulkBuffer s
  /\ ManualDMABuffer (final_state (AdiI2CInit sdk BitRate isDMA s))
     = ManualDMABuffer s
  /\ I2CRetryCount (FX3State (final_state (AdiI2CInit sdk BitRate isDMA s)))
     = I2CRetryCount (FX3State s).
Proof.
  assert (100000 <= filter_bit_rate BitRate <= 1000000) as Hclamp.
  { unfold filter_bit_rate.
    destruct (Z.ltb_spec BitRate 100000);
      [|destruct (Z.ltb_spec 1000000 BitRate)]; simpl; lia. }
  destruct (init_runs sdk s BitRate isDMA)
    as [(st & w & _ & Hst & ->)|(w & st & w' & _ & _ & ->)];
    erewrite new_events_app by reflexivity; simpl.
  - split; [by eexists _, _|]. split; [|split; [|done]].
    + split; [intros [= ->]; done|]. intros [Hin _]. elem_cases Hin.
    + intros cfg status Hin. elem_cases Hin.
  - split; [by eexists _, _|]. split; [|split; [|done]].
    + split.
      * intros [= ->]. split; [apply elem_of_cons; right;
                               apply elem_of_cons; by left|].
        eexists. do 2 (apply elem_of_cons; right). apply elem_of_cons.
        by left.
      * intros [_ [cfg Hin]]. elem_cases Hin. done.
    + intros cfg status Hin. elem_cases Hin. done.
Qed.

(** On the bench: the configuration applied for a request of 2 MHz in
    DMA mode. *)
Lemma X11_bus_configuration_runs_witness :
  busTimeout (mkI2cConfig 1000000 0xFFFFFFFF 0xFFFF true) = 0xFFFFFFFF
  /\ dmaTimeout (mkI2cConfig 1000000 0xFFFFFFFF 0xFFFF true) = 0xFFFF
  /\ isDma (mkI2cConfig 1000000 0xFFFFFFFF 0xFFFF true) = true
  /\ 100000 <= bitRate (mkI2cConfig 1000000 0xFFFFFFFF 0xFFFF true)
     <= 1000000
  /\ returned (AdiI2CInit bench_sdk 2000000 true
                 (bench_state [] (all_ok []))) = Some 0.
Proof.
  eapply (proj1 (proj2 (proj2 (X11_bus_configuration_runs bench_sdk
                                 (bench_state [] (all_ok [])) 2000000
                                 true)))).
  vm_compute. do 2 (apply elem_of_cons; right). apply elem_of_cons. by left.
Defined.

(** The filter as a clamp. *)
Lemma filter_bit_rate_clamp r :
  filter_bit_rate r = Z.max 100000 (Z.min 1000000 r).
Proof.
  unfold filter_bit_rate.
  destruct (Z.ltb_spec r 100000); simpl;
    [|destruct (Z.ltb_spec 1000000 r)]; lia.
Qed.

(** X12.  Clamping is stable and keeps the order of bit rates: a clamped
    rate is clamped to itself, and a higher request never yields a lower
    rate.  So configuring the bus again with the bit rate read back from
    the board state applies that very rate and leaves the board state as it
    is. *)
Theorem X12_stored_bit_rate_is_reapplied
    {W} (sdk : Sdk W) (s : state W) BitRate isDMA isDMA' :
  (forall r, filter_bit_rate (filter_bit_rate r) = filter_bit_rate r)
  /\ (forall r1 r2, r1 <= r2 -> filter_bit_rate r1 <= filter_bit_rate r2)
  /\ (forall w w',
        CyU3PI2cInit sdk (CyU3PI2cDeInit sdk (world s))
          = (CY_U3P_SUCCESS, w) ->
        CyU3PI2cInit sdk
          (CyU3PI2cDeInit sdk
             (world (final_state (AdiI2CInit sdk BitRate isDMA s))))
          = (CY_U3P_SUCCESS, w') ->
        FX3State
          (final_state
             (AdiI2CInit sdk
                (I2CBitRate
                   (FX3State (final_state (AdiI2CInit sdk BitRate isDMA s))))
                isDMA' (final_state (AdiI2CInit sdk BitRate isDMA s))))
        = FX3State (final_state (AdiI2CInit sdk BitRate isDMA s))
        /\ exists status,
             new_events (final_state (AdiI2CInit sdk BitRate isDMA s))
               (AdiI2CInit sdk
                  (I2CBitRate
                     (FX3State
                        (final_state (AdiI2CInit sdk BitRate isDMA s))))
                  isDMA' (final_state (AdiI2CInit sdk BitRate isDMA s)))
             = [EvI2cDeInit; EvI2cInit CY_U3P_SUCCESS;
                EvI2cSetConfig
                  (mkI2cConfig
                     (I2CBitRate
                        (FX3State
                           (final_state (AdiI2CInit sdk BitRate isDMA s))))
                     0xFFFFFFFF 0xFFFF isDMA') status]).
Proof.
  assert (forall r, filter_bit_rate (filter_bit_rate r) = filter_bit_rate r)
    as Hidem.
  { intros r. rewrite !filter_bit_rate_clamp. lia. }
  split; [done|]. split.
  { intros r1 r2 Hle. rewrite !filter_bit_rate_clamp. lia. }
  intros w w' Hinit Hinit'.
  destruct (CyU3PI2cSetConfig sdk w (applied_config BitRate isDMA))
    as [st1 w1] eqn:Hcfg.
  rewrite (init_configured sdk s BitRate isDMA w st1 w1 Hinit Hcfg)
    in Hinit' |- *.
  cbn [final_state] in Hinit' |- *.
  set (s1 := mkState _ _ _ _ _ _) in *.
  destruct (CyU3PI2cSetConfig sdk w'
              (applied_config (I2CBitRate (FX3State s1)) isDMA'))
    as [st2 w2] eqn:Hcfg'.
  rewrite (init_configured sdk s1 _ isDMA' w' st2 w2 Hinit' Hcfg').
  erewrite new_events_app by reflexivity.
  unfold applied_config. simpl. rewrite Hidem. split; [done|].
  by exists st2.
Qed.

(** On the bench: configuring with 50000 and then with the rate stored. *)
Lemma X12_stored_bit_rate_is_reapplied_witness :
  FX3State
    (final_state
       (AdiI2CInit bench_sdk
          (I2CBitRate
             (FX3State
                (final_state
                   (AdiI2CInit bench_sdk 50000 true
                      (bench_state [] (all_ok []))))))
          false
          (final_state
             (AdiI2CInit bench_sdk 50000 true
                (bench_state [] (all_ok []))))))
  = FX3State
      (final_state
         (AdiI2CInit bench_sdk 50000 true (bench_state [] (all_ok [])))).
Proof.
  eapply (proj2 (proj2 (X12_stored_bit_rate_is_reapplied bench_sdk
                          (bench_state [] (all_ok [])) 50000 true false))
            (all_ok []) (all_ok [])).
  - reflexivity.
  - reflexivity.
Defined.

(** X13.  Once the board state holds a bit rate between 100 kHz and 1 MHz,
    every operation of the module keeps it so: the handlers leave the rate
    alone, and the bus configuration either leaves it or replaces it by a
    clamped one.  A bus configuration whose bus initialisation succeeds
    establishes the range from any state. *)
Theorem X13_bit_rate_stays_in_range
    {W} (sdk : Sdk W) (s : state W) n BitRate isDMA :
  (bit_rate_in_range s ->
   bit_rate_in_range (final_state (AdiI2CReadHandler sdk n s))
   /\ bit_rate_in_range (final_state (AdiI2CWriteHandler sdk n s))
   /\ bit_rate_in_range (final_state (AdiI2CInit sdk BitRate isDMA s)))
  /\ (EvI2cInit CY_U3P_SUCCESS
        ∈ new_events s (AdiI2CInit sdk BitRate isDMA s) ->
      bit_rate_in_range (final_state (AdiI2CInit sdk BitRate isDMA s))).
Proof.
  assert (100000 <= filter_bit_rate BitRate <= 1000000) as Hclamp.
  { unfold filter_bit_rate.
    destruct (Z.ltb_spec BitRate 100000);
      [|destruct (Z.ltb_spec 1000000 BitRate)]; simpl; lia. }
  unfold bit_rate_in_range. split.
  - intros Hs. split; [|split].
    + destruct (read_runs sdk s n)
        as [(st & b & br & w0 & _ & _ & ->)
           |[(b & br & w0 & f & _ & _ & ->)
            |[(b & br & w0 & p & st & bulk & w' & _ & _ & _ & ->)
             |(b & br & w0 & p & bulk & w' & _ & _ & ->)]]]; done.
    + destruct (write_runs sdk s n)
        as [(st' & b' & br' & w1 & _ & _ & ->)
           |[(b' & br' & w1 & f' & _ & _ & ->)
            |[(b' & br' & w1 & p' & st' & w1' & _ & _ & _ & ->)
             |(b' & br' & w1 & p' & w1' & _ & _ & ->)]]]; done.
    + destruct (init_runs sdk s BitRate isDMA)
        as [(st & w & _ & _ & ->)|(w & st & w' & _ & _ & ->)]; done.
  - destruct (init_runs sdk s BitRate isDMA)
      as [(st & w & _ & Hst & ->)|(w & st & w' & _ & _ & ->)];
      erewrite new_events_app by reflexivity; simpl.
    + intros Hin. elem_cases Hin.
    + done.
Qed.

(** On the bench: the rate is in range after a start at 100 kHz and a
    request with a failing bus write. *)
Lemma X13_bit_rate_stays_in_range_witness :
  bit_rate_in_range
    (final_state
       (AdiI2CWriteHandler bench_sdk 14 (bench_state [] bus_write_fails))).
Proof.
  eapply (proj1 (X13_bit_rate_stays_in_range bench_sdk
                   (bench_state [] bus_write_fails) 14 0 false)).
  unfold bit_rate_in_range. simpl. lia.
Defined.
